(** * DocumentStack Node SDK: the [generate] round trip and its error taxonomy

    A shallow embedding of [src/client.ts], [src/errors.ts] and
    [src/types.ts], together with the parts of the JavaScript platform the
    client calls ([parseInt], [String.prototype.match] for the one pattern
    used, [encodeURIComponent], [decodeURIComponent], the [Headers] class of
    the Fetch standard), followed by the properties of [generate]. *)

From Stdlib Require Import ZArith NArith String Ascii List Lia Bool.
From Stdlib Require Import DecimalString.
From Stdlib.Strings Require Import Byte.
From stdpp Require Import base option list gmap.
Import ListNotations.

Local Open Scope N_scope.

(** ** JavaScript values *)

(** A JavaScript string is a sequence of UTF-16 code units. *)
Abbreviation JsString := (list N).

(** [js s] is the string literal with the characters of [s]. *)
Definition js (s : string) : JsString :=
  map N_of_ascii (list_ascii_of_string s).
Arguments js s%_string : simpl never.

(** The numbers the client handles are results of [parseInt] and lengths:
    [NaN] or an integer.  [Num z] stands for the Number with mathematical
    value [z] (exact up to 2^53 in magnitude; [-0] and [+0] are both
    [Num 0], and both are falsy). *)
Inductive JsNumber : Set :=
| NaN
| Num (z : Z).

(** ToBoolean on a Number: [NaN] and zero are falsy. *)
Definition truthy (n : JsNumber) : bool :=
  match n with
  | NaN => false
  | Num z => negb (z =? 0)%Z
  end.

(** [a || b] on Numbers. *)
Definition num_or (a b : JsNumber) : JsNumber :=
  if truthy a then a else b.

(** [s || d] on strings: the empty string is falsy. *)
Definition str_or (s d : JsString) : JsString :=
  match s with
  | [] => d
  | _ => s
  end.

(** [v || d] where [v] is a string or [null], as [Headers.get] returns. *)
Definition opt_str_or (v : option JsString) (d : JsString) : JsString :=
  match v with
  | Some s => str_or s d
  | None => d
  end.

(** An [Error] object, as far as the client inspects it. *)
Record JsError : Set := mkJsError {
  err_name : JsString;
  err_message : JsString
}.

(** A value a platform promise rejects with, or that platform code throws. *)
Inductive Reason : Set :=
| ErrorObject (e : JsError)
| NonError.

Definition URIError : JsError := mkJsError (js "URIError") (js "URI malformed").

(** ** [parseInt(string, 10)] *)

(** WhiteSpace and LineTerminator code units, which [parseInt] skips. *)
Definition isStrWhiteSpaceChar (c : N) : bool :=
  (c =? 9) || (c =? 10) || (c =? 11) || (c =? 12) || (c =? 13) ||
  (c =? 32) || (c =? 160) || (c =? 5760) ||
  ((8192 <=? c) && (c <=? 8202)) ||
  (c =? 8232) || (c =? 8233) || (c =? 8239) || (c =? 8287) ||
  (c =? 12288) || (c =? 65279).

Fixpoint trimStart (s : JsString) : JsString :=
  match s with
  | c :: t => if isStrWhiteSpaceChar c then trimStart t else s
  | [] => []
  end.

Definition isDigit (c : N) : bool := (48 <=? c) && (c <=? 57).

(** The longest prefix of decimal digits, most significant first. *)
Fixpoint digitPrefix (s : JsString) : list N :=
  match s with
  | c :: t => if isDigit c then (c - 48) :: digitPrefix t else []
  | [] => []
  end.

Definition digitsValue (ds : list N) : Z :=
  fold_left (fun acc d => (10 * acc + Z.of_N d)%Z) ds 0%Z.

Definition parseInt (input : JsString) : JsNumber :=
  let s := trimStart input in
  let '(sign, s) :=
    match s with
    | 45 :: t => ((-1)%Z, t)
    | 43 :: t => (1%Z, t)
    | _ => (1%Z, s)
    end in
  match digitPrefix s with
  | [] => NaN
  | ds => Num (sign * digitsValue ds)
  end.

(** ** [contentDisposition.match] on the [filename=] pattern

    The pattern is: the literal [filename=], an optional double quote, a
    capture group of one or more characters other than double quote,
    semicolon and line feed, and an optional double quote. *)

(** The character class of the capture group. *)
Definition filenameChar (c : N) : bool :=
  negb ((c =? 34) || (c =? 59) || (c =? 10)).

Fixpoint stripPrefix (p s : JsString) : option JsString :=
  match p, s with
  | [], _ => Some s
  | a :: p', b :: s' => if a =? b then stripPrefix p' s' else None
  | _ :: _, [] => None
  end.

Fixpoint takeWhile (f : N -> bool) (s : JsString) : JsString :=
  match s with
  | c :: t => if f c then c :: takeWhile f t else []
  | [] => []
  end.

(** The pattern anchored at the start of [s]; the result is capture group 1.
    After [filename=] one quote is skipped when present, and the group takes
    the longest run of class characters, which must not be empty.  Giving
    the optional quote back never helps: the group would then have to start
    at that quote, which the class excludes.  The closing optional quote always
    matches, possibly empty, so the greedy group is never shortened. *)
Definition matchFilenameAt (s : JsString) : option JsString :=
  match stripPrefix (js "filename=") s with
  | None => None
  | Some rest =>
      let rest :=
        match rest with
        | c :: t => if c =? 34 then t else rest
        | [] => rest
        end in
      match takeWhile filenameChar rest with
      | [] => None
      | g => Some g
      end
  end.

(** The leftmost match: the pattern is tried at every index in order. *)
Fixpoint matchFilename (s : JsString) : option JsString :=
  match matchFilenameAt s with
  | Some g => Some g
  | None =>
      match s with
      | _ :: t => matchFilename t
      | [] => None
      end
  end.

(** ** [encodeURIComponent] and [decodeURIComponent] *)

Definition hexDigit (d : N) : N := if d <? 10 then 48 + d else 55 + d.

(** A percent sign and two upper-case hexadecimal digits. *)
Definition percent (octet : N) : JsString :=
  [37; hexDigit (octet / 16); hexDigit (octet mod 16)].

Definition utf8Encode (cp : N) : list N :=
  if cp <? 128 then [cp]
  else if cp <? 2048 then [192 + cp / 64; 128 + cp mod 64]
  else if cp <? 65536 then
    [224 + cp / 4096; 128 + (cp / 64) mod 64; 128 + cp mod 64]
  else
    [240 + cp / 262144; 128 + (cp / 4096) mod 64;
     128 + (cp / 64) mod 64; 128 + cp mod 64].

(** Letters, digits and the marks [- _ . ! ~ *], apostrophe and the two
    parentheses. *)
Definition uriUnescaped (c : N) : bool :=
  ((65 <=? c) && (c <=? 90)) || ((97 <=? c) && (c <=? 122)) || isDigit c ||
  (c =? 45) || (c =? 95) || (c =? 46) || (c =? 33) || (c =? 126) ||
  (c =? 42) || (c =? 39) || (c =? 40) || (c =? 41).

Definition isLeadSurrogate (c : N) : bool := (55296 <=? c) && (c <=? 56319).
Definition isTrailSurrogate (c : N) : bool := (56320 <=? c) && (c <=? 57343).

Definition escapeCodePoint (cp : N) : JsString :=
  flat_map percent (utf8Encode cp).

Fixpoint encodeURIComponent (s : JsString) : JsError + JsString :=
  match s with
  | [] => inr []
  | c :: t =>
      if uriUnescaped c then
        match encodeURIComponent t with
        | inr r => inr (c :: r)
        | inl e => inl e
        end
      else if isTrailSurrogate c then inl URIError
      else if isLeadSurrogate c then
        match t with
        | d :: t' =>
            if isTrailSurrogate d then
              match encodeURIComponent t' with
              | inr r =>
                  inr (escapeCodePoint
                         (65536 + (c - 55296) * 1024 + (d - 56320)) ++ r)
              | inl e => inl e
              end
            else inl URIError
        | [] => inl URIError
        end
      else
        match encodeURIComponent t with
        | inr r => inr (escapeCodePoint c ++ r)
        | inl e => inl e
        end
  end.

Definition hexValue (c : N) : option N :=
  if isDigit c then Some (c - 48)
  else if (65 <=? c) && (c <=? 70) then Some (c - 55)
  else if (97 <=? c) && (c <=? 102) then Some (c - 87)
  else None.

(** The octet written [%XY] by the three code units [p x y]. *)
Definition escapedOctet (p x y : N) : option N :=
  if p =? 37 then
    match hexValue x, hexValue y with
    | Some h, Some l => Some (16 * h + l)
    | _, _ => None
    end
  else None.

(** A continuation octet [10xxxxxx], giving its six payload bits. *)
Definition continuation (p x y : N) : option N :=
  match escapedOctet p x y with
  | Some b => if (128 <=? b) && (b <? 192) then Some (b - 128) else None
  | None => None
  end.

Definition utf16Encode (cp : N) : JsString :=
  if cp <? 65536 then [cp]
  else [55296 + (cp - 65536) / 1024; 56320 + (cp - 65536) mod 1024].

(** Emit the code point [cp] decoded from a multi-octet sequence if it lies
    in [lo, hi] and is not a surrogate; shorter encodings of a smaller code
    point, surrogates and values past U+10FFFF are not valid UTF-8. *)
Definition emitCodePoint (lo hi cp : N) (rest : JsError + JsString)
  : JsError + JsString :=
  if (lo <=? cp) && (cp <=? hi) && negb ((55296 <=? cp) && (cp <=? 57343))
  then
    match rest with
    | inr r => inr (utf16Encode cp ++ r)
    | inl e => inl e
    end
  else inl URIError.

Fixpoint decodeURIComponent (s : JsString) : JsError + JsString :=
  match s with
  | [] => inr []
  | c :: k1 =>
      if negb (c =? 37) then
        match decodeURIComponent k1 with
        | inr r => inr (c :: r)
        | inl e => inl e
        end
      else
        match k1 with
        | x :: y :: k3 =>
            match escapedOctet c x y with
            | None => inl URIError
            | Some b =>
                if b <? 128 then
                  match decodeURIComponent k3 with
                  | inr r => inr (b :: r)
                  | inl e => inl e
                  end
                else if b <? 192 then inl URIError
                else if b <? 224 then
                  match k3 with
                  | p1 :: x1 :: y1 :: k6 =>
                      match continuation p1 x1 y1 with
                      | Some b1 =>
                          emitCodePoint 128 2047 ((b - 192) * 64 + b1)
                            (decodeURIComponent k6)
                      | None => inl URIError
                      end
                  | _ => inl URIError
                  end
                else if b <? 240 then
                  match k3 with
                  | p1 :: x1 :: y1 :: p2 :: x2 :: y2 :: k9 =>
                      match continuation p1 x1 y1, continuation p2 x2 y2 with
                      | Some b1, Some b2 =>
                          emitCodePoint 2048 65535
                            ((b - 224) * 4096 + b1 * 64 + b2)
                            (decodeURIComponent k9)
                      | _, _ => inl URIError
                      end
                  | _ => inl URIError
                  end
                else if b <? 248 then
                  match k3 with
                  | p1 :: x1 :: y1 :: p2 :: x2 :: y2 :: p3 :: x3 :: y3 :: k12 =>
                      match continuation p1 x1 y1, continuation p2 x2 y2,
                            continuation p3 x3 y3 with
                      | Some b1, Some b2, Some b3 =>
                          emitCodePoint 65536 1114111
                            ((b - 240) * 262144 + b1 * 4096 + b2 * 64 + b3)
                            (decodeURIComponent k12)
                      | _, _, _ => inl URIError
                      end
                  | _ => inl URIError
                  end
                else inl URIError
            end
        | _ => inl URIError
        end
  end.

(** ** Number to string, for template literals

    The decimal form of an integer Number, as [ToString] gives it below
    1e21 in magnitude. *)
Definition numberToString (z : Z) : JsString :=
  js (NilZero.string_of_int (Z.to_int z)).

(** ** The [Headers] class of the Fetch standard

    A header list keeps the headers in order; [get] compares names without
    regard to ASCII case and joins the values of all headers of that name
    with a comma and a space; it returns [null] when there is none. *)
Abbreviation HeaderList := (list (JsString * JsString)).

Definition toLowerASCII (s : JsString) : JsString :=
  map (fun c => if (65 <=? c) && (c <=? 90) then c + 32 else c) s.

Definition jsString_eqb (a b : JsString) : bool :=
  if decide (a = b) then true else false.

Fixpoint joinValues (vs : list JsString) : JsString :=
  match vs with
  | [] => []
  | [v] => v
  | v :: rest => v ++ [44; 32] ++ joinValues rest
  end.

Definition Headers_get (h : HeaderList) (name : JsString) : option JsString :=
  let vs :=
    map snd
      (List.filter (fun kv => jsString_eqb (toLowerASCII (fst kv)) (toLowerASCII name)) h)
  in
  match vs with
  | [] => None
  | _ => Some (joinValues vs)
  end.

(** ** [types.ts] *)

(** Values of type [unknown], as far as JSON carries them. *)
#[local] Unset Elimination Schemes.
Inductive Unknown : Set :=
| JNull
| JBool (b : bool)
| JNumber (n : JsNumber)
| JString (s : JsString)
| JArray (l : list Unknown)
| JObject (l : list (JsString * Unknown)).
#[local] Set Elimination Schemes.

Module DocumentStackConfig.
Record t : Type := mk {
  apiKey : JsString;
  baseUrl : option JsString;
  timeout : option Z;
  headers : option (gmap JsString JsString);
  debug : option bool
}.
End DocumentStackConfig.

Module GenerateOptions.
Record t : Set := mk {
  filename : option JsString
}.
End GenerateOptions.

Module GenerateRequest.
Record t : Set := mk {
  data : option Unknown;
  options : option GenerateOptions.t
}.
End GenerateRequest.

Module GenerateResponse.
Record t : Set := mk {
  pdf : list byte;
  filename : JsString;
  generationTimeMs : JsNumber;
  contentLength : JsNumber
}.
End GenerateResponse.

Module APIErrorResponse.
Record t : Set := mk {
  error : JsString;
  message : JsString;
  details : option Unknown
}.
End APIErrorResponse.

(** ** [errors.ts] *)

(** The classes below [APIError]; [instanceof] is decided by the class. *)
Inductive APIErrorClass : Set :=
| ValidationError
| AuthenticationError
| ForbiddenError
| NotFoundError
| RateLimitError
| ServerError.

Module APIError.
(** [retryAfter] is a property of [RateLimitError] only; reading it on
    another class gives [undefined], as does an unset one. *)
Record t : Set := mk {
  class : APIErrorClass;
  name : JsString;
  message : JsString;
  statusCode : Z;
  errorCode : JsString;
  details : option Unknown;
  retryAfter : option JsNumber
}.
End APIError.

Module TimeoutError.
Record t : Set := mk {
  name : JsString;
  message : JsString
}.
End TimeoutError.

Module NetworkError.
Record t : Set := mk {
  name : JsString;
  message : JsString;
  cause : option JsError
}.
End NetworkError.

(** [new X(response)] for a class [X] below [APIError]: the constructor of
    [APIError] runs with the status code the class passes to [super], then
    the class sets [name]. *)
Definition new_APIError (c : APIErrorClass) (name : JsString) (statusCode : Z)
    (response : APIErrorResponse.t) (retryAfter : option JsNumber)
  : APIError.t :=
  {| APIError.class := c;
     APIError.name := name;
     APIError.message := APIErrorResponse.message response;
     APIError.statusCode := statusCode;
     APIError.errorCode := APIErrorResponse.error response;
     APIError.details := APIErrorResponse.details response;
     APIError.retryAfter := retryAfter |}.

Definition new_ValidationError (response : APIErrorResponse.t) : APIError.t :=
  new_APIError ValidationError (js "ValidationError") 400 response None.

Definition new_AuthenticationError (response : APIErrorResponse.t) : APIError.t :=
  new_APIError AuthenticationError (js "AuthenticationError") 401 response None.

Definition new_ForbiddenError (response : APIErrorResponse.t) : APIError.t :=
  new_APIError ForbiddenError (js "ForbiddenError") 403 response None.

Definition new_NotFoundError (response : APIErrorResponse.t) : APIError.t :=
  new_APIError NotFoundError (js "NotFoundError") 404 response None.

Definition new_RateLimitError (response : APIErrorResponse.t)
    (retryAfter : option JsNumber) : APIError.t :=
  new_APIError RateLimitError (js "RateLimitError") 429 response retryAfter.

Definition new_ServerError (response : APIErrorResponse.t) : APIError.t :=
  new_APIError ServerError (js "ServerError") 500 response None.

Definition new_TimeoutError (timeout : Z) : TimeoutError.t :=
  {| TimeoutError.name := js "TimeoutError";
     TimeoutError.message :=
       js "Request timed out after " ++ numberToString timeout ++ js "ms" |}.

Definition new_NetworkError (message : JsString) (cause : option JsError)
  : NetworkError.t :=
  {| NetworkError.name := js "NetworkError";
     NetworkError.message := message;
     NetworkError.cause := cause |}.

(** What [generate] can reject with, and what can be thrown inside it. *)
Inductive Thrown : Set :=
| ThrownAPIError (e : APIError.t)
| ThrownTimeoutError (e : TimeoutError.t)
| ThrownNetworkError (e : NetworkError.t)
| ThrownError (e : JsError)
| ThrownValue.

Definition ofReason (r : Reason) : Thrown :=
  match r with
  | ErrorObject e => ThrownError e
  | NonError => ThrownValue
  end.

(** [error instanceof Error], giving the name and message of the error. *)
Definition asError (t : Thrown) : option JsError :=
  match t with
  | ThrownAPIError e => Some (mkJsError (APIError.name e) (APIError.message e))
  | ThrownTimeoutError e =>
      Some (mkJsError (TimeoutError.name e) (TimeoutError.message e))
  | ThrownNetworkError e =>
      Some (mkJsError (NetworkError.name e) (NetworkError.message e))
  | ThrownError e => Some e
  | ThrownValue => None
  end.

(** [error.statusCode]: only [APIError] declares the property. *)
Definition statusCodeOf (t : Thrown) : option Z :=
  match t with
  | ThrownAPIError e => Some (APIError.statusCode e)
  | _ => None
  end.

(** The eight kinds of the taxonomy, by class. *)
Inductive Kind : Set :=
| Validation
| Authentication
| Forbidden
| NotFound
| RateLimit
| Server
| Timeout
| Network.

Definition kindOfClass (c : APIErrorClass) : Kind :=
  match c with
  | ValidationError => Validation
  | AuthenticationError => Authentication
  | ForbiddenError => Forbidden
  | NotFoundError => NotFound
  | RateLimitError => RateLimit
  | ServerError => Server
  end.

Definition kindOf (t : Thrown) : option Kind :=
  match t with
  | ThrownAPIError e => Some (kindOfClass (APIError.class e))
  | ThrownTimeoutError _ => Some Timeout
  | ThrownNetworkError _ => Some Network
  | ThrownError _ => None
  | ThrownValue => None
  end.

(** ** The platform as [generate] sees it *)

Module RequestInit.
(** The [signal] of the abort controller is left to the platform: a fetch
    aborted by the timer rejects with an error named [AbortError]. *)
Record t : Type := mk {
  method : JsString;
  headers : gmap JsString JsString;
  body : JsString
}.
End RequestInit.

Module Response.
(** [json] and [arrayBuffer] hold what the promise of the method settles
    with.  A body that parses is taken at the type the client asserts for
    it, [APIErrorResponse]; the assertion is not checked at run time, and
    bodies that parse to a value of another shape are not modelled. *)
Record t : Set := mk {
  status : Z;
  statusText : JsString;
  headers : HeaderList;
  json : Reason + APIErrorResponse.t;
  arrayBuffer : Reason + list byte
}.

(** [ok] is true for a status from 200 to 299. *)
Definition ok (r : t) : bool :=
  ((200 <=? status r) && (status r <=? 299))%Z.
End Response.

Module Platform.
Record t : Type := mk {
  fetch : JsString -> RequestInit.t -> Reason + Response.t;
  JSON_stringify : GenerateRequest.t -> Reason + JsString
}.
End Platform.

(** What a call does that can be observed from outside. *)
Inductive Event : Type :=
| LogRequest (url : JsString) (headers : gmap JsString JsString)
    (body : JsString)
| Fetch (url : JsString) (init : RequestInit.t)
| LogResponse (filename : JsString) (generationTimeMs contentLength : JsNumber).

(** An asynchronous computation: the events it emitted, in order, and how
    it settled. *)
Definition Async (A : Type) : Type := list Event * (Thrown + A).

Definition ret {A} (a : A) : Async A := ([], inr a).

Definition throw {A} (t : Thrown) : Async A := ([], inl t).

Definition bind {A B} (m : Async A) (k : A -> Async B) : Async B :=
  match m with
  | (tr, inl t) => (tr, inl t)
  | (tr, inr a) => let '(tr', r) := k a in (tr ++ tr', r)
  end.

Definition emit (e : Event) : Async unit := ([e], inr tt).

(** A platform call that may throw or reject. *)
Definition await {A} (r : Reason + A) : Async A :=
  match r with
  | inl reason => throw (ofReason reason)
  | inr a => ret a
  end.

Definition try_catch {A} (m : Async A) (handler : Thrown -> Async A)
  : Async A :=
  match m with
  | (tr, inl t) => let '(tr', r) := handler t in (tr ++ tr', r)
  | (tr, inr a) => (tr, inr a)
  end.

Notation "'let!' x ':=' m 'in' k" := (bind m (fun x => k))
  (at level 10, x name, m at level 100, k at level 200,
   format "'[v' 'let!'  x  ':='  m  'in' '/' k ']'").

Notation "m ';;' k" := (bind m (fun _ => k))
  (at level 100, k at level 200, right associativity).

Definition when (b : bool) (m : Async unit) : Async unit :=
  if b then m else ret tt.

(** ** [client.ts] *)

Definition DEFAULT_BASE_URL : JsString := js "https://api.documentstack.dev".
Definition DEFAULT_TIMEOUT : Z := 30000.

Module DocumentStack.
(** The private [config] of a client. *)
Record t : Type := mk {
  apiKey : JsString;
  baseUrl : JsString;
  timeout : Z;
  headers : option (gmap JsString JsString);
  debug : option bool
}.
End DocumentStack.

(** [baseUrl.replace] with a pattern for one slash at the very end, which
    is removed. *)
Fixpoint stripTrailingSlash (s : JsString) : JsString :=
  match s with
  | [] => []
  | [c] => if c =? 47 then [] else [c]
  | c :: t => c :: stripTrailingSlash t
  end.

(** The constructor; the error is a plain [Error]. *)
Definition new_DocumentStack (config : DocumentStackConfig.t)
  : JsError + DocumentStack.t :=
  match DocumentStackConfig.apiKey config with
  | [] => inl (mkJsError (js "Error") (js "API key is required"))
  | apiKey =>
      inr {| DocumentStack.apiKey := apiKey;
             DocumentStack.baseUrl :=
               match DocumentStackConfig.baseUrl config with
               | Some u => str_or (stripTrailingSlash u) DEFAULT_BASE_URL
               | None => DEFAULT_BASE_URL
               end;
             DocumentStack.timeout :=
               default DEFAULT_TIMEOUT (DocumentStackConfig.timeout config);
             DocumentStack.headers := DocumentStackConfig.headers config;
             DocumentStack.debug := DocumentStackConfig.debug config |}
  end.

(** [{ ...base, ...extra }] on objects used as maps: the properties of
    [extra] are written after those of [base] and replace them; spreading
    [undefined] adds nothing. *)
Definition spread (base : gmap JsString JsString)
    (extra : option (gmap JsString JsString)) : gmap JsString JsString :=
  match extra with
  | Some h => h ∪ base
  | None => base
  end.

(** [if (this.config.debug)]. *)
Definition debugEnabled (this : DocumentStack.t) : bool :=
  default false (DocumentStack.debug this).

Definition createError (statusCode : Z) (response : APIErrorResponse.t)
    (headers : HeaderList) : APIError.t :=
  if (statusCode =? 400)%Z then new_ValidationError response
  else if (statusCode =? 401)%Z then new_AuthenticationError response
  else if (statusCode =? 403)%Z then new_ForbiddenError response
  else if (statusCode =? 404)%Z then new_NotFoundError response
  else if (statusCode =? 429)%Z then
    let retryAfter :=
      let n := parseInt (opt_str_or (Headers_get headers (js "Retry-After")) [])
      in if truthy n then Some n else None in
    new_RateLimitError response retryAfter
  else new_ServerError response.

(** The [try] block of [generate]. *)
Definition generateTry (P : Platform.t) (this : DocumentStack.t)
    (url : JsString) (headers : gmap JsString JsString) (body : JsString)
  : Async GenerateResponse.t :=
  let init :=
    {| RequestInit.method := js "POST";
       RequestInit.headers := headers;
       RequestInit.body := body |} in
  emit (Fetch url init);;
  let! response := await (Platform.fetch P url init) in
  if negb (Response.ok response) then
    let errorBody :=
      match Response.json response with
      | inr b => b
      | inl _ =>
          {| APIErrorResponse.error := js "Unknown Error";
             APIErrorResponse.message := Response.statusText response;
             APIErrorResponse.details := None |}
      end in
    throw (ThrownAPIError
             (createError (Response.status response) errorBody
                (Response.headers response)))
  else
    let! pdf := await (Response.arrayBuffer response) in
    let get := Headers_get (Response.headers response) in
    let contentDisposition := opt_str_or (get (js "Content-Disposition")) [] in
    let generationTimeMs :=
      parseInt (opt_str_or (get (js "X-Generation-Time-Ms")) (js "0")) in
    let contentLength :=
      parseInt (opt_str_or (get (js "Content-Length")) (js "0")) in
    let filenameMatch := matchFilename contentDisposition in
    let filename :=
      match filenameMatch with
      | Some g => str_or g (js "document.pdf")
      | None => js "document.pdf"
      end in
    when (debugEnabled this)
      (emit (LogResponse filename generationTimeMs contentLength));;
    let! decoded :=
      await (sum_map ErrorObject id (decodeURIComponent filename)) in
    ret {| GenerateResponse.pdf := pdf;
           GenerateResponse.filename := decoded;
           GenerateResponse.generationTimeMs := generationTimeMs;
           GenerateResponse.contentLength :=
             num_or contentLength (Num (Z.of_nat (length pdf))) |}.

(** The [catch] block of [generate]. *)
Definition generateCatch (this : DocumentStack.t) (error : Thrown)
  : Async GenerateResponse.t :=
  match error with
  | ThrownAPIError _ => throw error
  | _ =>
      match asError error with
      | Some e =>
          if jsString_eqb (err_name e) (js "AbortError") then
            throw (ThrownTimeoutError
                     (new_TimeoutError (DocumentStack.timeout this)))
          else
            throw (ThrownNetworkError
                     (new_NetworkError
                        (js "Network request failed: " ++ err_message e)
                        (Some e)))
      | None =>
          throw (ThrownNetworkError
                   (new_NetworkError (js "Unknown network error") None))
      end
  end.

Definition generate (P : Platform.t) (this : DocumentStack.t)
    (templateId : JsString) (request : GenerateRequest.t)
  : Async GenerateResponse.t :=
  match templateId with
  | [] =>
      throw (ThrownAPIError
               (new_ValidationError
                  {| APIErrorResponse.error := js "Bad Request";
                     APIErrorResponse.message := js "Template ID is required";
                     APIErrorResponse.details := None |}))
  | _ =>
      let! encoded :=
        await (sum_map ErrorObject id (encodeURIComponent templateId)) in
      let url :=
        DocumentStack.baseUrl this ++ js "/api/v1/generate/" ++ encoded in
      let headers :=
        spread
          (<[js "Authorization" := js "Bearer " ++ DocumentStack.apiKey this]>
             (<[js "Content-Type" := js "application/json"]> ∅))
          (DocumentStack.headers this) in
      let! body := await (Platform.JSON_stringify P request) in
      when (debugEnabled this)
        (emit (LogRequest url
                 (<[js "Authorization" := js "Bearer ***"]> headers) body));;
      try_catch (generateTry P this url headers body) (generateCatch this)
  end.

(** ** Observing a call *)

Definition outcome {A} (m : Async A) : Thrown + A := snd m.

Definition events {A} (m : Async A) : list Event := fst m.

(** The requests a call handed to [fetch]. *)
Definition fetched (tr : list Event) : list (JsString * RequestInit.t) :=
  flat_map (fun e => match e with Fetch u i => [(u, i)] | _ => [] end) tr.

(** The responses those requests resolved with. *)
Definition received (P : Platform.t) (tr : list Event) : list Response.t :=
  flat_map
    (fun '(u, i) =>
       match Platform.fetch P u i with
       | inr r => [r]
       | inl _ => []
       end)
    (fetched tr).

(** The status-to-classification table of the error contract. *)
Definition statusTable (status : Z) : Kind :=
  if (status =? 400)%Z then Validation
  else if (status =? 401)%Z then Authentication
  else if (status =? 403)%Z then Forbidden
  else if (status =? 404)%Z then NotFound
  else if (status =? 429)%Z then RateLimit
  else Server.

(** The status code each class hands to the constructor of [APIError]. *)
Definition statusOfClass (c : APIErrorClass) : Z :=
  match c with
  | ValidationError => 400
  | AuthenticationError => 401
  | ForbiddenError => 403
  | NotFoundError => 404
  | RateLimitError => 429
  | ServerError => 500
  end.

Definition withDebug (d : option bool) (this : DocumentStack.t)
  : DocumentStack.t :=
  {| DocumentStack.apiKey := DocumentStack.apiKey this;
     DocumentStack.baseUrl := DocumentStack.baseUrl this;
     DocumentStack.timeout := DocumentStack.timeout this;
     DocumentStack.headers := DocumentStack.headers this;
     DocumentStack.debug := d |}.

(** The two fixed request headers. *)
Definition fixedHeaders (this : DocumentStack.t) : gmap JsString JsString :=
  <[js "Authorization" := js "Bearer " ++ DocumentStack.apiKey this]>
    (<[js "Content-Type" := js "application/json"]> ∅).

(** The value of the local [filename] of [generate] before it is decoded,
    for a response with headers [h]. *)
Definition rawFilename (h : HeaderList) : JsString :=
  match matchFilename (opt_str_or (Headers_get h (js "Content-Disposition")) [])
  with
  | Some g => str_or g (js "document.pdf")
  | None => js "document.pdf"
  end.

(** The error body substituted when the body of a failure response does not
    parse. *)
Definition errorBodyOf (response : Response.t) : APIErrorResponse.t :=
  match Response.json response with
  | inr b => b
  | inl _ =>
      {| APIErrorResponse.error := js "Unknown Error";
         APIErrorResponse.message := Response.statusText response;
         APIErrorResponse.details := None |}
  end.

(** The result a success response with headers [h] and body [pdf] gives
    once the file name has decoded to [name]. *)
Definition resultOf (h : HeaderList) (pdf : list byte) (name : JsString)
  : GenerateResponse.t :=
  {| GenerateResponse.pdf := pdf;
     GenerateResponse.filename := name;
     GenerateResponse.generationTimeMs :=
       parseInt (opt_str_or (Headers_get h (js "X-Generation-Time-Ms")) (js "0"));
     GenerateResponse.contentLength :=
       num_or
         (parseInt (opt_str_or (Headers_get h (js "Content-Length")) (js "0")))
         (Num (Z.of_nat (length pdf))) |}.

(** ** Fixtures: platforms and responses for concrete runs *)

(** A platform whose [fetch] resolves with [response] whatever is sent. *)
Definition respondWith (response : Response.t) : Platform.t :=
  {| Platform.fetch := fun _ _ => inr response;
     Platform.JSON_stringify := fun _ => inr (js "{}") |}.

(** A platform whose [fetch] rejects with [reason]. *)
Definition rejectWith (reason : Reason) : Platform.t :=
  {| Platform.fetch := fun _ _ => inl reason;
     Platform.JSON_stringify := fun _ => inr (js "{}") |}.

Definition exampleClient (headers : option (gmap JsString JsString))
    (debug : option bool) : DocumentStack.t :=
  {| DocumentStack.apiKey := js "key";
     DocumentStack.baseUrl := DEFAULT_BASE_URL;
     DocumentStack.timeout := DEFAULT_TIMEOUT;
     DocumentStack.headers := headers;
     DocumentStack.debug := debug |}.

Definition emptyRequest : GenerateRequest.t :=
  {| GenerateRequest.data := None; GenerateRequest.options := None |}.

Definition exampleResponse (status : Z) (statusText : JsString)
    (headers : HeaderList) (json : Reason + APIErrorResponse.t)
    (body : list byte) : Response.t :=
  {| Response.status := status;
     Response.statusText := statusText;
     Response.headers := headers;
     Response.json := json;
     Response.arrayBuffer := inr body |}.

Definition syntaxError : Reason :=
  ErrorObject (mkJsError (js "SyntaxError") (js "Unexpected token"))%string.

Definition quoted (s : JsString) : JsString := [34] ++ s ++ [34].

Definition pdfHeaders : HeaderList :=
  [(js "Content-Disposition", js "attachment; filename=" ++ quoted (js "x.pdf"));
   (js "X-Generation-Time-Ms", js "42");
   (js "Content-Length", js "100")].



Definition noMatch : Response.t :=
  exampleResponse 200 (js "OK") [(js "Content-Disposition", js "inline")]
    (inl syntaxError) [x25; x50; x44; x46]%byte.

Definition pdfResponse : Response.t :=
  exampleResponse 200 (js "OK") pdfHeaders (inl syntaxError)
    [x25; x50; x44; x46]%byte.

Definition badRequest : Response.t :=
  exampleResponse 400 (js "Bad Request") [] (inl syntaxError) [].


Definition abortError : Reason :=
  ErrorObject (mkJsError (js "AbortError") (js "This operation was aborted")).


Definition malformedFilename : Response.t :=
  exampleResponse 200 (js "OK")
    [(js "Content-Disposition", js "attachment; filename=" ++ quoted (js "%"))]
    (inl syntaxError) [x25; x50; x44; x46]%byte.

Definition basicAuth : gmap JsString JsString :=
  {[ js "Authorization" := js "Basic abc" ]}.

(** [APIError.isAPIError(error)]: [error instanceof APIError]. *)
Definition isAPIError (error : Thrown) : bool :=
  match error with
  | ThrownAPIError _ => true
  | _ => false
  end.


(** More fixtures. *)

(** A platform that cannot serialise the request. *)
Definition cannotStringify (reason : Reason) : Platform.t :=
  {| Platform.fetch := fun _ _ => inl NonError;
     Platform.JSON_stringify := fun _ => inl reason |}.

Definition typeError : Reason :=
  ErrorObject
    (mkJsError (js "TypeError") (js "Converting circular structure to JSON")).

Definition connectionRefused : JsError :=
  mkJsError (js "TypeError") (js "fetch failed").


Definition unreadable : Response.t :=
  {| Response.status := 200;
     Response.statusText := js "OK";
     Response.headers := pdfHeaders;
     Response.json := inl syntaxError;
     Response.arrayBuffer := inl (ErrorObject connectionRefused) |}.

Definition exampleConfig (baseUrl : option JsString) (timeout : option Z)
  : DocumentStackConfig.t :=
  {| DocumentStackConfig.apiKey := js "key";
     DocumentStackConfig.baseUrl := baseUrl;
     DocumentStackConfig.timeout := timeout;
     DocumentStackConfig.headers := None;
     DocumentStackConfig.debug := None |}.

(** ** The platform functions on small inputs *)

Example parseInt_digits : parseInt (js "42") = Num 42.
Proof. reflexivity. Qed.

Example parseInt_prefix : parseInt (js "  -12px") = Num (-12).
Proof. reflexivity. Qed.

Example parseInt_hex_prefix : parseInt (js "0x1F") = Num 0.
Proof. reflexivity. Qed.

Example parseInt_text : parseInt (js "soon") = NaN.
Proof. reflexivity. Qed.

Example parseInt_empty : parseInt [] = NaN.
Proof. reflexivity. Qed.

Example matchFilename_quoted :
  matchFilename (js "attachment; filename=" ++ quoted (js "x.pdf")) =
  Some (js "x.pdf").
Proof. reflexivity. Qed.

Example matchFilename_bare :
  matchFilename (js "attachment; filename=a b.pdf; size=3") =
  Some (js "a b.pdf").
Proof. reflexivity. Qed.

Example matchFilename_second_try :
  matchFilename (js "filename=;filename=r.pdf") = Some (js "r.pdf").
Proof. reflexivity. Qed.

Example matchFilename_extended :
  matchFilename (js "attachment; filename*=UTF-8''r.pdf") = None.
Proof. reflexivity. Qed.

Example matchFilename_empty_quotes :
  matchFilename (js "attachment; filename=" ++ quoted []) = None.
Proof. reflexivity. Qed.

Example decodeURIComponent_plain :
  decodeURIComponent (js "document.pdf") = inr (js "document.pdf").
Proof. reflexivity. Qed.

Example decodeURIComponent_escapes :
  decodeURIComponent (js "a%20b%C3%A9%E2%82%AC%F0%9F%98%80") =
  inr [97; 32; 98; 233; 8364; 55357; 56832].
Proof. reflexivity. Qed.

Example decodeURIComponent_lone_percent :
  decodeURIComponent (js "%") = inl URIError.
Proof. reflexivity. Qed.

Example decodeURIComponent_overlong :
  decodeURIComponent (js "%C0%80") = inl URIError.
Proof. reflexivity. Qed.

Example decodeURIComponent_surrogate :
  decodeURIComponent (js "%ED%A0%80") = inl URIError.
Proof. reflexivity. Qed.

Example encodeURIComponent_reserved :
  encodeURIComponent (js "a b/c" ++ [233; 8364; 55357; 56832]) =
  inr (js "a%20b%2Fc%C3%A9%E2%82%AC%F0%9F%98%80").
Proof. reflexivity. Qed.

Example encodeURIComponent_lone_surrogate :
  encodeURIComponent [55357] = inl URIError.
Proof. reflexivity. Qed.

Example Headers_get_any_case :
  Headers_get [(js "content-length", js "7")] (js "Content-Length") =
  Some (js "7").
Proof. reflexivity. Qed.

Example Headers_get_joined :
  Headers_get [(js "Retry-After", js "1"); (js "retry-after", js "2")]
    (js "Retry-After") = Some (js "1, 2").
Proof. reflexivity. Qed.

Example Headers_get_missing :
  Headers_get pdfHeaders (js "Retry-After") = None.
Proof. reflexivity. Qed.

Example new_TimeoutError_message :
  TimeoutError.message (new_TimeoutError DEFAULT_TIMEOUT) =
  js "Request timed out after 30000ms".
Proof. reflexivity. Qed.

Example new_DocumentStack_no_key :
  new_DocumentStack (DocumentStackConfig.mk [] None None None None) =
  inl (mkJsError (js "Error") (js "API key is required")).
Proof. reflexivity. Qed.

Example new_DocumentStack_defaults :
  new_DocumentStack (DocumentStackConfig.mk (js "key") None None None None) =
  inr (exampleClient None None).
Proof. reflexivity. Qed.

Example new_DocumentStack_trailing_slash :
  sum_map id DocumentStack.baseUrl
    (new_DocumentStack
       (DocumentStackConfig.mk (js "key") (Some (js "http://h/v1/"))
          None None None))
  = inr (js "http://h/v1").
Proof. reflexivity. Qed.

(** ** How a call unfolds *)

Lemma outcome_pair {A} (tr : list Event) (r : Thrown + A) :
  outcome (tr, r) = r.
Proof. reflexivity. Qed.

Lemma events_pair {A} (tr : list Event) (r : Thrown + A) :
  events (tr, r) = tr.
Proof. reflexivity. Qed.

Lemma outcome_bind {A B} (m : Async A) (k : A -> Async B) :
  outcome (bind m k) =
  match outcome m with
  | inl t => inl t
  | inr a => outcome (k a)
  end.
Proof.
  destruct m as [tr [t | a]]; simpl; [reflexivity |].
  destruct (k a); reflexivity.
Qed.

Lemma outcome_try_catch {A} (m : Async A) (h : Thrown -> Async A) :
  outcome (try_catch m h) =
  match outcome m with
  | inl t => outcome (h t)
  | inr a => inr a
  end.
Proof.
  destruct m as [tr [t | a]]; simpl; [| reflexivity].
  destruct (h t); reflexivity.
Qed.

Lemma fetched_app (tr tr' : list Event) :
  fetched (tr ++ tr') = fetched tr ++ fetched tr'.
Proof. unfold fetched. apply flat_map_app. Qed.

(** The [catch] block emits nothing. *)
Lemma events_generateCatch (this : DocumentStack.t) (t : Thrown) :
  events (generateCatch this t) = [].
Proof.
  unfold generateCatch.
  destruct t; simpl; try reflexivity;
    match goal with |- context [jsString_eqb ?a ?b] =>
      destruct (jsString_eqb a b) end; reflexivity.
Qed.

(** The [try] block calls [fetch] once, first of all. *)
Lemma fetched_generateTry P this url headers body :
  fetched (events (try_catch (generateTry P this url headers body)
                     (generateCatch this))) =
  [(url, RequestInit.mk (js "POST") headers body)].
Proof.
  unfold generateTry, try_catch, bind, emit, await, throw, ret, events.
  destruct (Platform.fetch P url _) as [reason | response]; simpl.
  - pose proof (events_generateCatch this (ofReason reason)) as E.
    unfold events in E.
    destruct (generateCatch this (ofReason reason)) as [tr' r']; simpl in *.
    subst tr'. reflexivity.
  - destruct (negb (Response.ok response)); simpl; [reflexivity |].
    destruct (Response.arrayBuffer response) as [reason | pdf]; simpl.
    + pose proof (events_generateCatch this (ofReason reason)) as E.
      unfold events in E.
      destruct (generateCatch this (ofReason reason)) as [tr' r']; simpl in *.
      subst tr'. reflexivity.
    + unfold when. destruct (debugEnabled this); simpl;
        destruct (decodeURIComponent _) as [e | decoded]; simpl;
        try reflexivity;
        match goal with |- context [jsString_eqb ?a ?b] =>
          destruct (jsString_eqb a b) end; reflexivity.
Qed.

(** A call with a non-empty, well-formed template id and a request that
    serialises logs the request when debugging, then runs the [try] and
    [catch] blocks. *)
Lemma generate_sent P this tid rq encoded body :
  tid <> [] ->
  encodeURIComponent tid = inr encoded ->
  Platform.JSON_stringify P rq = inr body ->
  let url := DocumentStack.baseUrl this ++ js "/api/v1/generate/" ++ encoded in
  let headers := spread (fixedHeaders this) (DocumentStack.headers this) in
  let T := try_catch (generateTry P this url headers body)
             (generateCatch this) in
  exists log,
    generate P this tid rq = (log ++ events T, outcome T) /\
    log =
    if debugEnabled this
    then [LogRequest url (<[js "Authorization" := js "Bearer ***"]> headers) body]
    else [].
Proof.
  intros Hne Henc Hbody url headers T.
  unfold generate. fold (fixedHeaders this).
  destruct tid as [| c tid']; [congruence |].
  rewrite Henc, Hbody.
  cbn [sum_map await bind ret throw id fst snd app]. fold url headers T.
  destruct T as [tr r].
  destruct (debugEnabled this); eexists; split; reflexivity.
Qed.

(** A call that reached [fetch] built its request from a non-empty,
    well-formed template id and a body that serialises, sent that one
    request, and settles as the [try] and [catch] blocks do. *)
Lemma generate_fetched P this tid rq url init :
  In (url, init) (fetched (events (generate P this tid rq))) ->
  exists encoded body,
    let headers := spread (fixedHeaders this) (DocumentStack.headers this) in
    tid <> [] /\
    encodeURIComponent tid = inr encoded /\
    Platform.JSON_stringify P rq = inr body /\
    url = DocumentStack.baseUrl this ++ js "/api/v1/generate/" ++ encoded /\
    init = RequestInit.mk (js "POST") headers body /\
    fetched (events (generate P this tid rq)) = [(url, init)] /\
    outcome (generate P this tid rq) =
    outcome (try_catch (generateTry P this url headers body)
               (generateCatch this)).
Proof.
  intros Hin.
  destruct tid as [| c tid']; [destruct Hin |].
  destruct (encodeURIComponent (c :: tid')) as [e | encoded] eqn:Henc.
  { unfold generate in Hin. rewrite Henc in Hin. destruct Hin. }
  destruct (Platform.JSON_stringify P rq) as [reason | body] eqn:Hbody.
  { unfold generate in Hin. rewrite Henc, Hbody in Hin. destruct Hin. }
  exists encoded, body. cbv zeta.
  assert (Hne : c :: tid' <> []) by discriminate.
  destruct (generate_sent P this _ rq encoded body Hne Henc Hbody)
    as (log & E & Hlog).
  assert (Hpre : fetched log = [])
    by (subst log; destruct (debugEnabled this); reflexivity).
  clear Hlog. rewrite E in Hin. rewrite E. clear E.
  unfold events at 1 in Hin. unfold events at 1. unfold outcome at 1.
  cbn [fst snd] in Hin |- *.
  rewrite fetched_app, Hpre in Hin. rewrite fetched_app, Hpre.
  cbn [app] in Hin |- *.
  pose proof (fetched_generateTry P this
    (DocumentStack.baseUrl this ++ js "/api/v1/generate/" ++ encoded)
    (spread (fixedHeaders this) (DocumentStack.headers this)) body) as F.
  rewrite F in Hin. rewrite F.
  destruct Hin as [Heq | []]. inversion Heq; subst url init.
  repeat split; congruence.
Qed.

Lemma generate_received P this tid rq response :
  In response (received P (events (generate P this tid rq))) ->
  exists url headers body,
    Platform.fetch P url (RequestInit.mk (js "POST") headers body) =
      inr response /\
    outcome (generate P this tid rq) =
    outcome (try_catch (generateTry P this url headers body)
               (generateCatch this)).
Proof.
  intros Hin. unfold received in Hin.
  apply in_flat_map in Hin. destruct Hin as ([url init] & Hsent & Hres).
  destruct (generate_fetched _ _ _ _ _ _ Hsent)
    as (encoded & body & _ & _ & _ & _ & Hinit & _ & Hout).
  cbv zeta in Hinit, Hout. subst init.
  destruct (Platform.fetch P url _) as [reason | response'] eqn:Hfetch;
    [destruct Hres |].
  destruct Hres as [-> | []].
  eauto.
Qed.


Lemma generateTry_rejected P this url headers body reason :
  Platform.fetch P url (RequestInit.mk (js "POST") headers body) = inl reason ->
  outcome (generateTry P this url headers body) = inl (ofReason reason).
Proof.
  intros Hfetch. unfold generateTry.
  rewrite outcome_bind. cbn [emit outcome snd].
  rewrite outcome_bind, Hfetch. reflexivity.
Qed.

Lemma generateTry_unreadable P this url headers body response reason :
  Platform.fetch P url (RequestInit.mk (js "POST") headers body) = inr response ->
  Response.ok response = true ->
  Response.arrayBuffer response = inl reason ->
  outcome (generateTry P this url headers body) = inl (ofReason reason).
Proof.
  intros Hfetch Hok Hbuf. unfold generateTry.
  rewrite outcome_bind. cbn [emit outcome snd].
  rewrite outcome_bind, Hfetch. cbn [await ret outcome snd].
  rewrite Hok. cbn [negb]. rewrite outcome_bind, Hbuf. reflexivity.
Qed.

Lemma generateTry_not_ok P this url headers body response :
  Platform.fetch P url (RequestInit.mk (js "POST") headers body) = inr response ->
  Response.ok response = false ->
  outcome (generateTry P this url headers body) =
  inl (ThrownAPIError
         (createError (Response.status response) (errorBodyOf response)
            (Response.headers response))).
Proof.
  intros Hfetch Hok. unfold generateTry.
  rewrite outcome_bind. simpl. rewrite outcome_bind, Hfetch. simpl.
  rewrite Hok. reflexivity.
Qed.

Lemma generateTry_ok P this url headers body response pdf :
  Platform.fetch P url (RequestInit.mk (js "POST") headers body) = inr response ->
  Response.ok response = true ->
  Response.arrayBuffer response = inr pdf ->
  outcome (generateTry P this url headers body) =
  match decodeURIComponent (rawFilename (Response.headers response)) with
  | inl e => inl (ThrownError e)
  | inr decoded =>
      inr {| GenerateResponse.pdf := pdf;
             GenerateResponse.filename := decoded;
             GenerateResponse.generationTimeMs :=
               parseInt (opt_str_or
                 (Headers_get (Response.headers response)
                    (js "X-Generation-Time-Ms")) (js "0"));
             GenerateResponse.contentLength :=
               num_or
                 (parseInt (opt_str_or
                    (Headers_get (Response.headers response)
                       (js "Content-Length")) (js "0")))
                 (Num (Z.of_nat (length pdf))) |}
  end.
Proof.
  intros Hfetch Hok Hbuf. unfold generateTry.
  rewrite outcome_bind. simpl. rewrite outcome_bind, Hfetch. simpl.
  rewrite Hok. simpl. rewrite outcome_bind, Hbuf. simpl.
  rewrite outcome_bind.
  replace (outcome (when (debugEnabled this) _)) with (@inr Thrown unit tt)
    by (destruct (debugEnabled this); reflexivity).
  rewrite outcome_bind. fold (rawFilename (Response.headers response)).
  destruct (decodeURIComponent _); reflexivity.
Qed.

(** A failure response is turned into the error [createError] builds. *)
Lemma generate_not_ok P this tid rq response :
  In response (received P (events (generate P this tid rq))) ->
  Response.ok response = false ->
  outcome (generate P this tid rq) =
  inl (ThrownAPIError
         (createError (Response.status response) (errorBodyOf response)
            (Response.headers response))).
Proof.
  intros Hin Hok.
  destruct (generate_received _ _ _ _ _ Hin)
    as (url & headers & body & Hfetch & ->).
  rewrite outcome_try_catch.
  rewrite (generateTry_not_ok _ _ _ _ _ _ Hfetch Hok). reflexivity.
Qed.

(** A success response whose body can be read gives the result below, or
    what the [catch] block makes of a failed decoding of the file name. *)
Lemma generate_ok P this tid rq response pdf :
  In response (received P (events (generate P this tid rq))) ->
  Response.ok response = true ->
  Response.arrayBuffer response = inr pdf ->
  outcome (generate P this tid rq) =
  match decodeURIComponent (rawFilename (Response.headers response)) with
  | inl e => outcome (generateCatch this (ThrownError e))
  | inr decoded =>
      inr {| GenerateResponse.pdf := pdf;
             GenerateResponse.filename := decoded;
             GenerateResponse.generationTimeMs :=
               parseInt (opt_str_or
                 (Headers_get (Response.headers response)
                    (js "X-Generation-Time-Ms")) (js "0"));
             GenerateResponse.contentLength :=
               num_or
                 (parseInt (opt_str_or
                    (Headers_get (Response.headers response)
                       (js "Content-Length")) (js "0")))
                 (Num (Z.of_nat (length pdf))) |}
  end.
Proof.
  intros Hin Hok Hbuf.
  destruct (generate_received _ _ _ _ _ Hin)
    as (url & headers & body & Hfetch & ->).
  rewrite outcome_try_catch.
  rewrite (generateTry_ok _ _ _ _ _ _ _ Hfetch Hok Hbuf).
  destruct (decodeURIComponent _); reflexivity.
Qed.

(** ** Properties of [createError] and of the [catch] block *)

Lemma createError_kind status body headers :
  kindOfClass (APIError.class (createError status body headers)) =
  statusTable status.
Proof.
  unfold createError, statusTable.
  repeat match goal with |- context [(status =? ?k)%Z] =>
    destruct (status =? k)%Z end; reflexivity.
Qed.

Lemma createError_statusCode status body headers :
  APIError.statusCode (createError status body headers) =
  statusOfClass (APIError.class (createError status body headers)).
Proof.
  unfold createError.
  repeat match goal with |- context [(status =? ?k)%Z] =>
    destruct (status =? k)%Z end; reflexivity.
Qed.

Lemma createError_body status body headers :
  APIError.errorCode (createError status body headers) =
    APIErrorResponse.error body /\
  APIError.message (createError status body headers) =
    APIErrorResponse.message body /\
  APIError.details (createError status body headers) =
    APIErrorResponse.details body.
Proof.
  unfold createError.
  repeat match goal with |- context [(status =? ?k)%Z] =>
    destruct (status =? k)%Z end; repeat split; reflexivity.
Qed.

(** The [catch] block always throws; what it throws for anything but an
    [APIError] is a [TimeoutError] or a [NetworkError]. *)
Lemma generateCatch_throws this t :
  exists t', outcome (generateCatch this t) = inl t' /\
    ((exists e, t = ThrownAPIError e /\ t' = t) \/
     (exists e, t' = ThrownTimeoutError e) \/
     (exists e, t' = ThrownNetworkError e)).
Proof.
  unfold generateCatch.
  destruct t; cbn [asError err_name err_message];
    try match goal with |- context [jsString_eqb ?a ?b] =>
      destruct (jsString_eqb a b) end;
    eexists; (split; [reflexivity |]); eauto.
Qed.

(** The errors the [catch] block builds itself. *)
Lemma generateCatch_builds this t t' :
  outcome (generateCatch this t) = inl t' ->
  (exists e, t = ThrownAPIError e /\ t' = t) \/
  t' = ThrownTimeoutError (new_TimeoutError (DocumentStack.timeout this)) \/
  exists message cause,
    t' = ThrownNetworkError (new_NetworkError message cause).
Proof.
  unfold generateCatch.
  destruct t; cbn [asError err_name err_message];
    try match goal with |- context [jsString_eqb ?a ?b] =>
      destruct (jsString_eqb a b) end;
    intros H; inversion H; eauto.
Qed.

(** An [APIError] thrown inside the [try] block was built by
    [createError]. *)
Lemma generateTry_throws_APIError P this url headers body e :
  outcome (generateTry P this url headers body) = inl (ThrownAPIError e) ->
  exists response,
    Platform.fetch P url (RequestInit.mk (js "POST") headers body) =
      inr response /\
    Response.ok response = false /\
    e = createError (Response.status response) (errorBodyOf response)
          (Response.headers response).
Proof.
  unfold generateTry. rewrite outcome_bind. cbn [emit outcome snd].
  rewrite outcome_bind.
  destruct (Platform.fetch P url _) as [reason | response] eqn:Hfetch.
  { destruct reason; discriminate. }
  cbn [await ret outcome snd].
  destruct (Response.ok response) eqn:Hok; cbn [negb].
  - rewrite outcome_bind.
    destruct (Response.arrayBuffer response) as [reason | pdf].
    { destruct reason; discriminate. }
    cbn [await ret outcome snd]. rewrite outcome_bind.
    replace (outcome (when (debugEnabled this) _)) with (@inr Thrown unit tt)
      by (destruct (debugEnabled this); reflexivity).
    rewrite outcome_bind.
    destruct (decodeURIComponent _); discriminate.
  - intros H. inversion H. eauto.
Qed.

(** Every [APIError] a call raises is the one for the empty template id or
    was built by [createError] from a failure response. *)
Lemma generate_throws_APIError P this tid rq e :
  outcome (generate P this tid rq) = inl (ThrownAPIError e) ->
  (tid = [] /\
   e = new_ValidationError
         (APIErrorResponse.mk (js "Bad Request")
            (js "Template ID is required") None)) \/
  exists response,
    Response.ok response = false /\
    e = createError (Response.status response) (errorBodyOf response)
          (Response.headers response).
Proof.
  intros H.
  destruct tid as [| c tid'].
  { left. split; [reflexivity |]. inversion H. reflexivity. }
  right.
  destruct (encodeURIComponent (c :: tid')) as [err | encoded] eqn:Henc.
  { unfold generate in H. rewrite Henc in H. discriminate. }
  destruct (Platform.JSON_stringify P rq) as [reason | body] eqn:Hbody.
  { unfold generate in H. rewrite Henc, Hbody in H.
    destruct reason; discriminate. }
  assert (Hne : c :: tid' <> []) by discriminate.
  destruct (generate_sent P this _ rq encoded body Hne Henc Hbody)
    as (log & E & _).
  rewrite E in H. unfold outcome at 1 in H. cbn [snd] in H.
  rewrite outcome_try_catch in H.
  destruct (outcome (generateTry P this _ _ body)) as [t | result] eqn:Htry;
    [| discriminate].
  destruct (generateCatch_throws this t) as (t' & Hc & Hcases).
  rewrite Hc in H. inversion H; subst t'.
  destruct Hcases as [(e' & -> & He) | [(e' & He) | (e' & He)]];
    try discriminate.
  inversion He; subst e'.
  destruct (generateTry_throws_APIError _ _ _ _ _ _ Htry)
    as (response & _ & Hok & ->).
  eauto.
Qed.

(** ** The claims *)

(** Every error a call raises: an [APIError], a platform error or value
    thrown while the request was being built, the timeout error for the
    configured timeout, or a network error. *)
Lemma generate_throws P this tid rq t :
  outcome (generate P this tid rq) = inl t ->
  (exists e, t = ThrownAPIError e) \/
  (exists e, t = ThrownError e) \/
  t = ThrownValue \/
  t = ThrownTimeoutError (new_TimeoutError (DocumentStack.timeout this)) \/
  exists message cause,
    t = ThrownNetworkError (new_NetworkError message cause).
Proof.
  intros H.
  destruct tid as [| c tid'].
  { left. inversion H. eauto. }
  destruct (encodeURIComponent (c :: tid')) as [err | encoded] eqn:Henc.
  { unfold generate in H. rewrite Henc in H. inversion H. eauto. }
  destruct (Platform.JSON_stringify P rq) as [reason | body] eqn:Hbody.
  { unfold generate in H. rewrite Henc, Hbody in H.
    destruct reason; inversion H; eauto. }
  assert (Hne : c :: tid' <> []) by discriminate.
  destruct (generate_sent P this _ rq encoded body Hne Henc Hbody)
    as (log & E & _).
  rewrite E, outcome_pair, outcome_try_catch in H.
  destruct (outcome (generateTry P this _ _ body)) as [t0 | result];
    [| discriminate].
  destruct (generateCatch_builds _ _ _ H) as [(e & -> & ->) | [-> | Hn]].
  - left. eauto.
  - do 3 right. left. reflexivity.
  - do 4 right. exact Hn.
Qed.




Lemma fixedHeaders_lookup this :
  fixedHeaders this !! js "Content-Type" = Some (js "application/json") /\
  fixedHeaders this !! js "Authorization" =
    Some (js "Bearer " ++ DocumentStack.apiKey this).
Proof.
  unfold fixedHeaders. split.
  - rewrite lookup_insert_ne by (vm_compute; discriminate).
    apply lookup_insert_eq.
  - apply lookup_insert_eq.
Qed.

Lemma spread_lookup base extra name :
  spread base extra !! name =
  match extra ≫= (fun h : gmap JsString JsString => h !! name) with
  | Some v => Some v
  | None => base !! name
  end.
Proof.
  destruct extra as [h |]; cbn; [| reflexivity].
  rewrite lookup_union.
  destruct (h !! name), (base !! name); reflexivity.
Qed.

(** C2, as stated, fails: a caller-supplied [Authorization] header is the
    one sent, in place of the fixed bearer credential. *)
Lemma C2_counterexample_authorization :
  let this := exampleClient (Some basicAuth) None in
  let run := generate (respondWith pdfResponse) this (js "tpl") emptyRequest in
  exists url init,
    In (url, init) (fetched (events run)) /\
    basicAuth !! js "Authorization" = Some (js "Basic abc") /\
    fixedHeaders this !! js "Authorization" = Some (js "Bearer key") /\
    RequestInit.headers init !! js "Authorization" = Some (js "Basic abc") /\
    RequestInit.headers init !! js "Authorization" <>
      fixedHeaders this !! js "Authorization".
Proof.
  cbv zeta. eexists. eexists.
  split; [vm_compute; left; reflexivity |].
  split; [vm_compute; reflexivity |].
  split; [vm_compute; reflexivity |].
  split; [vm_compute; reflexivity |].
  vm_compute. discriminate.
Qed.

(** C2, amended: in every request a call sends, the value under a header
    name is the caller-supplied one when the caller supplies that name, and
    the fixed one otherwise; so on a collision with [Content-Type] or
    [Authorization] the caller's value is the one sent. *)
Theorem C2_caller_headers_replace_fixed P this tid rq url init name :
  In (url, init) (fetched (events (generate P this tid rq))) ->
  RequestInit.headers init !! name =
    match DocumentStack.headers this ≫=
            (fun h : gmap JsString JsString => h !! name) with
    | Some v => Some v
    | None => fixedHeaders this !! name
    end /\
  fixedHeaders this !! js "Content-Type" = Some (js "application/json") /\
  fixedHeaders this !! js "Authorization" =
    Some (js "Bearer " ++ DocumentStack.apiKey this).
Proof.
  intros Hin.
  destruct (generate_fetched _ _ _ _ _ _ Hin)
    as (encoded & body & _ & _ & _ & _ & Hinit & _).
  cbv zeta in Hinit. subst init. cbn [RequestInit.headers].
  split; [apply spread_lookup | apply fixedHeaders_lookup].
Qed.

(** C2 at a client configured with its own [Authorization] header. *)
Lemma C2_witness_authorization :
  RequestInit.headers
    (RequestInit.mk (js "POST")
       (spread (fixedHeaders (exampleClient (Some basicAuth) None))
          (Some basicAuth)) (js "{}")) !! js "Authorization" =
    match Some basicAuth ≫=
            (fun h : gmap JsString JsString => h !! js "Authorization") with
    | Some v => Some v
    | None => fixedHeaders (exampleClient (Some basicAuth) None)
                !! js "Authorization"
    end /\
  fixedHeaders (exampleClient (Some basicAuth) None) !! js "Content-Type" =
    Some (js "application/json") /\
  fixedHeaders (exampleClient (Some basicAuth) None) !! js "Authorization" =
    Some (js "Bearer " ++ js "key").
Proof.
  apply (C2_caller_headers_replace_fixed (respondWith pdfResponse)
           (exampleClient (Some basicAuth) None) (js "tpl") emptyRequest
           (DEFAULT_BASE_URL ++ js "/api/v1/generate/" ++ js "tpl")).
  vm_compute. left. reflexivity.
Defined.

(** A success response gives a result when its body can be read and the
    file name decodes. *)
Lemma generate_returns P this tid rq response pdf name :
  In response (received P (events (generate P this tid rq))) ->
  Response.ok response = true ->
  Response.arrayBuffer response = inr pdf ->
  decodeURIComponent (rawFilename (Response.headers response)) = inr name ->
  outcome (generate P this tid rq) =
  inr (resultOf (Response.headers response) pdf name).
Proof.
  intros Hin Hok Hbuf Hdec.
  rewrite (generate_ok _ _ _ _ _ _ Hin Hok Hbuf), Hdec. reflexivity.
Qed.

(** And only then. *)
Lemma generate_returns_inv P this tid rq response result :
  In response (received P (events (generate P this tid rq))) ->
  Response.ok response = true ->
  outcome (generate P this tid rq) = inr result ->
  exists pdf name,
    Response.arrayBuffer response = inr pdf /\
    decodeURIComponent (rawFilename (Response.headers response)) = inr name /\
    result = resultOf (Response.headers response) pdf name.
Proof.
  intros Hin Hok Hres.
  destruct (Response.arrayBuffer response) as [reason | pdf] eqn:Hbuf.
  - destruct (generate_received _ _ _ _ _ Hin)
      as (url & headers & body & Hfetch & Hout).
    rewrite Hout, outcome_try_catch in Hres.
    rewrite (generateTry_unreadable _ _ _ _ _ _ _ Hfetch Hok Hbuf) in Hres.
    destruct (generateCatch_throws this (ofReason reason)) as (t' & Hc & _).
    rewrite Hc in Hres. discriminate.
  - rewrite (generate_ok _ _ _ _ _ _ Hin Hok Hbuf) in Hres.
    destruct (decodeURIComponent _) as [e | name] eqn:Hdec.
    + destruct (generateCatch_throws this (ThrownError e)) as (t' & Hc & _).
      rewrite Hc in Hres. discriminate.
    + inversion Hres. eauto.
Qed.







(** C5, as stated, fails: the timeout error raised when the request is
    aborted carries no status code at all, so its status code is not 0. *)
Lemma C5_counterexample_timeout :
  let run := generate (rejectWith abortError) (exampleClient None None)
               (js "tpl") emptyRequest in
  exists t,
    outcome run = inl t /\
    kindOf t = Some Timeout /\
    statusCodeOf t = None /\
    statusCodeOf t <> Some 0%Z.
Proof.
  cbv zeta. eexists. split; [vm_compute; reflexivity |].
  split; [reflexivity |]. split; [reflexivity | discriminate].
Qed.

(** C5, amended: an error of kind Timeout or Network raised by a call
    carries no status code (the classes declare none): it is the timeout
    error built from the configured timeout, or a network error built from
    a message and a cause.  Every error of an HTTP-derived kind carries the
    status code of its class. *)
Theorem C5_only_http_errors_carry_status P this tid rq t :
  outcome (generate P this tid rq) = inl t ->
  (kindOf t = Some Timeout ->
   t = ThrownTimeoutError (new_TimeoutError (DocumentStack.timeout this)) /\
   statusCodeOf t = None) /\
  (kindOf t = Some Network ->
   (exists message cause,
      t = ThrownNetworkError (new_NetworkError message cause)) /\
   statusCodeOf t = None) /\
  (forall e, t = ThrownAPIError e ->
   kindOf t = Some (kindOfClass (APIError.class e)) /\
   statusCodeOf t = Some (statusOfClass (APIError.class e))).
Proof.
  intros Hout.
  pose proof (generate_throws _ _ _ _ _ Hout) as Hforms.
  split; [| split].
  - intros Hkind.
    destruct Hforms as [(e & ->) | [(e & ->) | [-> | [-> | (m & c & ->)]]]];
      try discriminate; [| split; reflexivity].
    cbn in Hkind. destruct (APIError.class e); discriminate.
  - intros Hkind.
    destruct Hforms as [(e & ->) | [(e & ->) | [-> | [-> | (m & c & ->)]]]];
      try discriminate; [| split; [eauto | reflexivity]].
    cbn in Hkind. destruct (APIError.class e); discriminate.
  - intros e ->. split; [reflexivity |]. cbn [statusCodeOf]. f_equal.
    destruct (generate_throws_APIError _ _ _ _ _ Hout)
      as [[_ ->] | (response & _ & ->)].
    + reflexivity.
    + apply createError_statusCode.
Qed.

(** C5 at a request aborted by the timer. *)
Lemma C5_witness_timeout :
  statusCodeOf (ThrownTimeoutError (new_TimeoutError DEFAULT_TIMEOUT)) = None.
Proof.
  destruct (C5_only_http_errors_carry_status (rejectWith abortError)
              (exampleClient None None) (js "tpl") emptyRequest
              (ThrownTimeoutError (new_TimeoutError DEFAULT_TIMEOUT)))
    as [Hnone _].
  - vm_compute. reflexivity.
  - apply Hnone. reflexivity.
Defined.

(** C6: a call that received a success response whose body reads as [body]
    (which a call with an empty template id never does) returns the file
    name, generation time and content length of the example headers and
    [body] itself as the document; the file name is [document.pdf] when the
    disposition header is missing or does not match; the content length is
    the length of [body] when the length header is missing, does not parse,
    or is zero. *)
Theorem C6_success_result P this tid rq response body :
  In response (received P (events (generate P this tid rq))) ->
  Response.ok response = true ->
  Response.arrayBuffer response = inr body ->
  let get := Headers_get (Response.headers response) in
  tid <> [] /\
  (get (js "Content-Disposition") =
     Some (js "attachment; filename=" ++ quoted (js "x.pdf")) ->
   get (js "X-Generation-Time-Ms") = Some (js "42") ->
   get (js "Content-Length") = Some (js "100") ->
   outcome (generate P this tid rq) =
   inr {| GenerateResponse.pdf := body;
          GenerateResponse.filename := js "x.pdf";
          GenerateResponse.generationTimeMs := Num 42;
          GenerateResponse.contentLength := Num 100 |}) /\
  ((get (js "Content-Disposition") = None \/
    exists v, get (js "Content-Disposition") = Some v /\
              matchFilename v = None) ->
   exists result,
     outcome (generate P this tid rq) = inr result /\
     GenerateResponse.filename result = js "document.pdf" /\
     GenerateResponse.pdf result = body) /\
  ((get (js "Content-Length") = None \/
    exists v, get (js "Content-Length") = Some v /\
              (parseInt v = NaN \/ parseInt v = Num 0)) ->
   (forall name,
      decodeURIComponent (rawFilename (Response.headers response)) = inr name ->
      exists result, outcome (generate P this tid rq) = inr result) /\
   (forall result,
      outcome (generate P this tid rq) = inr result ->
      GenerateResponse.contentLength result = Num (Z.of_nat (length body)) /\
      GenerateResponse.pdf result = body)).
Proof.
  intros Hin Hok Hbuf get.
  split; [| split; [| split]].
  - intros ->. destruct Hin.
  - intros Hcd Htime Hlen.
    rewrite (generate_ok _ _ _ _ _ _ Hin Hok Hbuf).
    unfold rawFilename. fold get. rewrite Hcd, Htime, Hlen.
    vm_compute. reflexivity.
  - intros Hcd.
    assert (Hraw : rawFilename (Response.headers response) = js "document.pdf").
    { unfold rawFilename. fold get.
      destruct Hcd as [-> | (v & -> & Hv)]; [reflexivity |].
      destruct v; cbn [opt_str_or str_or]; [reflexivity |].
      rewrite Hv. reflexivity. }
    eexists. split.
    + eapply (generate_returns _ _ _ _ _ _ _ Hin Hok Hbuf).
      rewrite Hraw. vm_compute. reflexivity.
    + split; reflexivity.
  - intros Hlen. split.
    + intros name Hdec. eexists.
      apply (generate_returns _ _ _ _ _ _ _ Hin Hok Hbuf Hdec).
    + intros result Hres.
      destruct (generate_returns_inv _ _ _ _ _ _ Hin Hok Hres)
        as (pdf & name & Hbuf' & _ & ->).
      rewrite Hbuf in Hbuf'. inversion Hbuf'; subst pdf.
      split; [| reflexivity].
      cbn [resultOf GenerateResponse.contentLength]. fold get.
      destruct Hlen as [-> | (v & -> & Hv)]; [reflexivity |].
      destruct v as [| c v]; [reflexivity |].
      cbn [opt_str_or str_or].
      destruct Hv as [-> | ->]; reflexivity.
Qed.

(** C6 at the example response, and at a response without a file name and
    without a length header. *)
Lemma C6_witness_pdf :
  outcome (generate (respondWith pdfResponse) (exampleClient None None)
             (js "tpl") emptyRequest) =
    inr {| GenerateResponse.pdf := [x25; x50; x44; x46]%byte;
           GenerateResponse.filename := js "x.pdf";
           GenerateResponse.generationTimeMs := Num 42;
           GenerateResponse.contentLength := Num 100 |} /\
  exists result,
    outcome (generate (respondWith noMatch) (exampleClient None None)
               (js "tpl") emptyRequest) = inr result /\
    GenerateResponse.filename result = js "document.pdf" /\
    GenerateResponse.pdf result = [x25; x50; x44; x46]%byte /\
    GenerateResponse.contentLength result = Num 4.
Proof.
  split.
  - assert (Hin : In pdfResponse
              (received (respondWith pdfResponse)
                 (events (generate (respondWith pdfResponse)
                            (exampleClient None None) (js "tpl") emptyRequest))))
      by (vm_compute; left; reflexivity).
    destruct (C6_success_result (respondWith pdfResponse)
                (exampleClient None None) (js "tpl") emptyRequest pdfResponse
                [x25; x50; x44; x46]%byte Hin eq_refl eq_refl)
      as (_ & Hexample & _).
    apply Hexample; reflexivity.
  - assert (Hin : In noMatch
              (received (respondWith noMatch)
                 (events (generate (respondWith noMatch)
                            (exampleClient None None) (js "tpl") emptyRequest))))
      by (vm_compute; left; reflexivity).
    destruct (C6_success_result (respondWith noMatch)
                (exampleClient None None) (js "tpl") emptyRequest noMatch
                [x25; x50; x44; x46]%byte Hin eq_refl eq_refl)
      as (_ & _ & Hname & Hlength).
    destruct Hname as (result & Hres & Hfile & Hpdf).
    { right. exists (js "inline"). split; reflexivity. }
    exists result. repeat (split; [assumption |]).
    apply Hlength; [left; reflexivity | exact Hres].
Defined.

(** C7: for every failure response whose body does not parse, the call
    raises the error the status table gives for the status (a validation
    error for 400), with error code [Unknown Error] and the status text as
    its message; nothing else is raised in its place. *)
Theorem C7_unparsable_error_body P this tid rq response reason :
  In response (received P (events (generate P this tid rq))) ->
  Response.ok response = false ->
  Response.json response = inl reason ->
  exists e,
    outcome (generate P this tid rq) = inl (ThrownAPIError e) /\
    kindOf (ThrownAPIError e) = Some (statusTable (Response.status response)) /\
    APIError.errorCode e = js "Unknown Error" /\
    APIError.message e = Response.statusText response /\
    (Response.status response = 400%Z ->
     kindOf (ThrownAPIError e) = Some Validation).
Proof.
  intros Hin Hok Hjson.
  eexists. split; [apply (generate_not_ok _ _ _ _ _ Hin Hok) |].
  cbn [kindOf]. rewrite createError_kind.
  destruct (createError_body (Response.status response) (errorBodyOf response)
              (Response.headers response)) as (-> & -> & _).
  unfold errorBodyOf. rewrite Hjson.
  repeat split. intros ->. reflexivity.
Qed.

(** C7 at a 400 response whose body is not JSON. *)
Lemma C7_witness_bad_request :
  exists e,
    outcome (generate (respondWith badRequest) (exampleClient None None)
               (js "tpl") emptyRequest) = inl (ThrownAPIError e) /\
    kindOf (ThrownAPIError e) = Some Validation /\
    APIError.errorCode e = js "Unknown Error" /\
    APIError.message e = js "Bad Request".
Proof.
  assert (Hin : In badRequest
            (received (respondWith badRequest)
               (events (generate (respondWith badRequest)
                          (exampleClient None None) (js "tpl") emptyRequest))))
    by (vm_compute; left; reflexivity).
  destruct (C7_unparsable_error_body (respondWith badRequest)
              (exampleClient None None) (js "tpl") emptyRequest badRequest
              syntaxError Hin eq_refl eq_refl)
    as (e & Hout & _ & Hcode & Hmsg & Hkind).
  exists e. split; [exact Hout |]. split; [apply Hkind; reflexivity |].
  split; [exact Hcode | exact Hmsg].
Defined.

(** C8: a call with an empty template id fails with a validation error
    (an [APIError] of status 400, not the plain error of the constructor)
    and emits nothing: no request reaches [fetch]. *)
Theorem C8_empty_templateId P this rq :
  exists e,
    generate P this [] rq = ([], inl (ThrownAPIError e)) /\
    kindOf (ThrownAPIError e) = Some Validation /\
    APIError.statusCode e = 400%Z /\
    APIError.errorCode e = js "Bad Request" /\
    APIError.message e = js "Template ID is required" /\
    (forall err, outcome (generate P this [] rq) <> inl (ThrownError err)) /\
    fetched (events (generate P this [] rq)) = [].
Proof.
  eexists. split; [reflexivity |].
  repeat (split; [reflexivity |]).
  split; [discriminate | reflexivity].
Qed.

Lemma outcome_generateTry_debug P this d url headers body :
  outcome (generateTry P (withDebug d this) url headers body) =
  outcome (generateTry P this url headers body).
Proof.
  destruct (Platform.fetch P url (RequestInit.mk (js "POST") headers body))
    as [reason | response] eqn:Hfetch.
  { rewrite !(generateTry_rejected _ _ _ _ _ _ Hfetch). reflexivity. }
  destruct (Response.ok response) eqn:Hok.
  - destruct (Response.arrayBuffer response) as [reason | pdf] eqn:Hbuf.
    + rewrite !(generateTry_unreadable _ _ _ _ _ _ _ Hfetch Hok Hbuf).
      reflexivity.
    + rewrite !(generateTry_ok _ _ _ _ _ _ _ Hfetch Hok Hbuf). reflexivity.
  - rewrite !(generateTry_not_ok _ _ _ _ _ _ Hfetch Hok). reflexivity.
Qed.

(** What a call sends and how it settles, whatever the debug flag. *)
Lemma generate_withDebug P this d tid rq :
  outcome (generate P (withDebug d this) tid rq) =
    outcome (generate P this tid rq) /\
  fetched (events (generate P (withDebug d this) tid rq)) =
    fetched (events (generate P this tid rq)).
Proof.
  destruct tid as [| c tid']; [split; reflexivity |].
  destruct (encodeURIComponent (c :: tid')) as [e | encoded] eqn:Henc.
  { unfold generate. rewrite Henc. split; reflexivity. }
  destruct (Platform.JSON_stringify P rq) as [reason | body] eqn:Hbody.
  { unfold generate. rewrite Henc, Hbody. split; reflexivity. }
  assert (Hne : c :: tid' <> []) by discriminate.
  destruct (generate_sent P this _ rq encoded body Hne Henc Hbody)
    as (log & -> & Hlog).
  destruct (generate_sent P (withDebug d this) _ rq encoded body Hne Henc Hbody)
    as (log' & -> & Hlog').
  assert (Hpre : fetched log = [])
    by (subst log; destruct (debugEnabled this); reflexivity).
  assert (Hpre' : fetched log' = [])
    by (subst log'; destruct (debugEnabled (withDebug d this)); reflexivity).
  clear Hlog Hlog'.
  rewrite !outcome_pair, !events_pair.
  rewrite !fetched_app, Hpre, Hpre'. cbn [app].
  rewrite !fetched_generateTry.
  split; [| reflexivity].
  rewrite !outcome_try_catch.
  change (spread (fixedHeaders (withDebug d this))
            (DocumentStack.headers (withDebug d this)))
    with (spread (fixedHeaders this) (DocumentStack.headers this)).
  change (DocumentStack.baseUrl (withDebug d this))
    with (DocumentStack.baseUrl this).
  rewrite outcome_generateTry_debug.
  destruct (outcome (generateTry P this _ _ body)); reflexivity.
Qed.

(** C9: two calls that differ only in the debug flag send the same request
    and settle alike, with the same result or the same error. *)
Theorem C9_debug_changes_nothing P this d d' tid rq :
  outcome (generate P (withDebug d this) tid rq) =
    outcome (generate P (withDebug d' this) tid rq) /\
  fetched (events (generate P (withDebug d this) tid rq)) =
    fetched (events (generate P (withDebug d' this) tid rq)).
Proof.
  destruct (generate_withDebug P this d tid rq) as [-> ->].
  destruct (generate_withDebug P this d' tid rq) as [-> ->].
  split; reflexivity.
Qed.

(** C10: there is a success response, with a file name that is a lone
    percent sign, for which no result is returned: decoding the file name
    throws a [URIError], the [catch] block takes it for a transport failure,
    and the call fails with a network error whose cause is that error. *)
Theorem C10_malformed_filename_is_network_error :
  let run := generate (respondWith malformedFilename) (exampleClient None None)
               (js "tpl") emptyRequest in
  In malformedFilename (received (respondWith malformedFilename) (events run)) /\
  Response.ok malformedFilename = true /\
  rawFilename (Response.headers malformedFilename) = js "%" /\
  decodeURIComponent (js "%") = inl URIError /\
  (forall result, outcome run <> inr result) /\
  outcome run =
    inl (ThrownNetworkError
           (new_NetworkError (js "Network request failed: URI malformed")
              (Some URIError))) /\
  kindOf (ThrownNetworkError
            (new_NetworkError (js "Network request failed: URI malformed")
               (Some URIError))) = Some Network.
Proof.
  cbv zeta. split; [vm_compute; left; reflexivity |].
  split; [reflexivity |]. split; [vm_compute; reflexivity |].
  split; [vm_compute; reflexivity |].
  assert (H : outcome (generate (respondWith malformedFilename)
                         (exampleClient None None) (js "tpl") emptyRequest) =
              inl (ThrownNetworkError
                     (new_NetworkError
                        (js "Network request failed: URI malformed")
                        (Some URIError))))
    by (vm_compute; reflexivity).
  split; [rewrite H; discriminate |]. split; [exact H | reflexivity].
Qed.

(** ** Further properties: the constructor *)

Lemma stripTrailingSlash_slash (u : JsString) :
  stripTrailingSlash (u ++ [47]) = u.
Proof.
  induction u as [| c t IH]; [reflexivity |].
  cbn [app stripTrailingSlash]. rewrite IH.
  destruct t; reflexivity.
Qed.

Lemma stripTrailingSlash_other (u : JsString) :
  last u <> Some 47 -> stripTrailingSlash u = u.
Proof.
  induction u as [| c t IH]; [reflexivity |].
  destruct t as [| d t'].
  - cbn. intros H. destruct (N.eqb_spec c 47); [congruence | reflexivity].
  - intros H. change (last (c :: d :: t')) with (last (d :: t')) in H.
    cbn [stripTrailingSlash]. cbn [stripTrailingSlash] in IH.
    rewrite (IH H). reflexivity.
Qed.

Lemma stripTrailingSlash_empty (u : JsString) :
  stripTrailingSlash u = [] <-> u = [] \/ u = [47].
Proof.
  split.
  - destruct u as [| c [| d t]]; [auto | |].
    + cbn. destruct (N.eqb_spec c 47); [subst; auto | discriminate].
    + cbn. discriminate.
  - intros [-> | ->]; reflexivity.
Qed.

(** X1: the constructor fails exactly when the API key is empty, with the
    plain error [API key is required]; with any other key it returns a
    client holding that key. *)
Theorem X1_constructor_requires_key (config : DocumentStackConfig.t) :
  (DocumentStackConfig.apiKey config = [] <->
   new_DocumentStack config =
     inl (mkJsError (js "Error") (js "API key is required"))) /\
  (DocumentStackConfig.apiKey config <> [] <->
   exists client,
     new_DocumentStack config = inr client /\
     DocumentStack.apiKey client = DocumentStackConfig.apiKey config).
Proof.
  unfold new_DocumentStack.
  destruct (DocumentStackConfig.apiKey config) as [| c k] eqn:Hkey.
  - split; split; try reflexivity; try congruence.
    intros (client & H & _). discriminate.
  - split; split; try discriminate.
    intros _. eexists. split; reflexivity.
Qed.

(** X2: with a key, a base URL that ends in a slash loses exactly that one
    slash, and a non-empty base URL that does not end in a slash is kept as
    it is. *)
Theorem X2_baseUrl_one_trailing_slash (config : DocumentStackConfig.t)
    (u : JsString) :
  DocumentStackConfig.apiKey config <> [] ->
  u <> [] ->
  (DocumentStackConfig.baseUrl config = Some (u ++ [47]) ->
   exists client,
     new_DocumentStack config = inr client /\
     DocumentStack.baseUrl client = u) /\
  (DocumentStackConfig.baseUrl config = Some u -> last u <> Some 47 ->
   exists client,
     new_DocumentStack config = inr client /\
     DocumentStack.baseUrl client = u).
Proof.
  intros Hkey Hu. unfold new_DocumentStack.
  destruct (DocumentStackConfig.apiKey config) as [| c k]; [congruence |].
  split.
  - intros ->. eexists. split; [reflexivity |].
    cbn [DocumentStack.baseUrl]. rewrite stripTrailingSlash_slash.
    destruct u; [congruence | reflexivity].
  - intros -> Hlast. eexists. split; [reflexivity |].
    cbn [DocumentStack.baseUrl]. rewrite (stripTrailingSlash_other _ Hlast).
    destruct u; [congruence | reflexivity].
Qed.

(** X2 at a base URL with two trailing slashes: one is left. *)
Lemma X2_witness_two_slashes :
  exists client,
    new_DocumentStack (exampleConfig (Some (js "http://h//")) None) =
      inr client /\
    DocumentStack.baseUrl client = js "http://h/".
Proof.
  destruct (X2_baseUrl_one_trailing_slash
              (exampleConfig (Some (js "http://h//")) None) (js "http://h/"))
    as [Hslash _]; [discriminate | discriminate |].
  apply Hslash. reflexivity.
Defined.

(** X3: every client the constructor returns has a non-empty key and a
    non-empty base URL; the base URL is the default when none is given or
    the given one is empty or a lone slash; the timeout is the given one,
    zero included, and 30000 when none is given; headers and the debug flag
    are taken over unchanged. *)
Theorem X3_constructed_client (config : DocumentStackConfig.t)
    (client : DocumentStack.t) :
  new_DocumentStack config = inr client ->
  DocumentStack.apiKey client = DocumentStackConfig.apiKey config /\
  DocumentStack.apiKey client <> [] /\
  DocumentStack.baseUrl client <> [] /\
  (DocumentStackConfig.baseUrl config = None \/
   DocumentStackConfig.baseUrl config = Some [] \/
   DocumentStackConfig.baseUrl config = Some [47] ->
   DocumentStack.baseUrl client = DEFAULT_BASE_URL) /\
  (forall t, DocumentStackConfig.timeout config = Some t ->
   DocumentStack.timeout client = t) /\
  (DocumentStackConfig.timeout config = None ->
   DocumentStack.timeout client = 30000%Z) /\
  DocumentStack.headers client = DocumentStackConfig.headers config /\
  DocumentStack.debug client = DocumentStackConfig.debug config.
Proof.
  unfold new_DocumentStack.
  destruct (DocumentStackConfig.apiKey config) as [| c k]; [discriminate |].
  intros H. inversion H; subst client; clear H.
  cbn [DocumentStack.apiKey DocumentStack.baseUrl DocumentStack.timeout
       DocumentStack.headers DocumentStack.debug].
  split; [reflexivity |]. split; [discriminate |]. split; [| split].
  - destruct (DocumentStackConfig.baseUrl config) as [u |];
      [| vm_compute; discriminate].
    destruct (stripTrailingSlash u) eqn:Hs;
      [vm_compute; discriminate | cbn; discriminate].
  - intros [-> | [-> | ->]]; reflexivity.
  - split; [intros t ->; reflexivity |].
    split; [intros ->; reflexivity |]. split; reflexivity.
Qed.

(** X3 at a configuration with a lone slash as base URL and a zero
    timeout. *)
Lemma X3_witness_zero_timeout :
  DocumentStack.baseUrl
    {| DocumentStack.apiKey := js "key";
       DocumentStack.baseUrl := DEFAULT_BASE_URL;
       DocumentStack.timeout := 0;
       DocumentStack.headers := None;
       DocumentStack.debug := None |} = DEFAULT_BASE_URL /\
  DocumentStack.timeout
    {| DocumentStack.apiKey := js "key";
       DocumentStack.baseUrl := DEFAULT_BASE_URL;
       DocumentStack.timeout := 0;
       DocumentStack.headers := None;
       DocumentStack.debug := None |} = 0%Z.
Proof.
  destruct (X3_constructed_client (exampleConfig (Some [47]) (Some 0%Z))
              {| DocumentStack.apiKey := js "key";
                 DocumentStack.baseUrl := DEFAULT_BASE_URL;
                 DocumentStack.timeout := 0;
                 DocumentStack.headers := None;
                 DocumentStack.debug := None |} eq_refl)
    as (_ & _ & _ & Hbase & Htime & _).
  split; [apply Hbase; right; right; reflexivity | apply Htime; reflexivity].
Defined.

(** ** Further properties: failures *)

Lemma jsString_eqb_eq (a b : JsString) : jsString_eqb a b = true <-> a = b.
Proof.
  unfold jsString_eqb. destruct (decide (a = b)); split; auto; discriminate.
Qed.



(** A call that handed a request to [fetch] settles as the [catch] block
    does when [fetch] rejects. *)
Lemma generate_rejected P this tid rq url init reason :
  In (url, init) (fetched (events (generate P this tid rq))) ->
  Platform.fetch P url init = inl reason ->
  outcome (generate P this tid rq) =
  outcome (generateCatch this (ofReason reason)).
Proof.
  intros Hin Hfetch.
  destruct (generate_fetched _ _ _ _ _ _ Hin)
    as (encoded & body & _ & _ & _ & _ & Hinit & _ & ->).
  cbv zeta in Hinit. subst init.
  rewrite outcome_try_catch, (generateTry_rejected _ _ _ _ _ _ Hfetch).
  reflexivity.
Qed.







(** X7: when [fetch] rejects with any other error, the call fails with a
    network error whose message ends with the message of that error and
    whose cause is that error; when [fetch] rejects with a value that is
    not an error, the network error has a fixed message and no cause. *)
Theorem X7_rejection_is_network_error P this tid rq url init reason :
  In (url, init) (fetched (events (generate P this tid rq))) ->
  Platform.fetch P url init = inl reason ->
  (forall e, reason = ErrorObject e -> err_name e <> js "AbortError" ->
   outcome (generate P this tid rq) =
   inl (ThrownNetworkError
          (new_NetworkError (js "Network request failed: " ++ err_message e)
             (Some e)))) /\
  (reason = NonError ->
   outcome (generate P this tid rq) =
   inl (ThrownNetworkError
          (new_NetworkError (js "Unknown network error") None))).
Proof.
  intros Hin Hfetch.
  rewrite (generate_rejected _ _ _ _ _ _ _ Hin Hfetch).
  split.
  - intros e -> Hname. unfold generateCatch. cbn [ofReason asError].
    destruct (jsString_eqb (err_name e) (js "AbortError")) eqn:Heq;
      [| reflexivity].
    apply jsString_eqb_eq in Heq. contradiction.
  - intros ->. reflexivity.
Qed.

(** X7 at a refused connection. *)
Lemma X7_witness_connection_refused :
  outcome (generate (rejectWith (ErrorObject connectionRefused))
             (exampleClient None None) (js "tpl") emptyRequest) =
  inl (ThrownNetworkError
         (new_NetworkError (js "Network request failed: fetch failed")
            (Some connectionRefused))).
Proof.
  destruct (X7_rejection_is_network_error
              (rejectWith (ErrorObject connectionRefused))
              (exampleClient None None) (js "tpl") emptyRequest
              (DEFAULT_BASE_URL ++ js "/api/v1/generate/" ++ js "tpl")
              (RequestInit.mk (js "POST")
                 (fixedHeaders (exampleClient None None)) (js "{}"))
              (ErrorObject connectionRefused)) as [Herror _].
  - vm_compute. left. reflexivity.
  - reflexivity.
  - apply (Herror connectionRefused); [reflexivity | discriminate].
Defined.

(** X8: when the body of a success response cannot be read, no result is
    returned: the call fails with a timeout or network error, and with a
    network error naming the failure when that is an error not named
    [AbortError]. *)
Theorem X8_unreadable_body P this tid rq response reason :
  In response (received P (events (generate P this tid rq))) ->
  Response.ok response = true ->
  Response.arrayBuffer response = inl reason ->
  (exists t,
     outcome (generate P this tid rq) = inl t /\
     (kindOf t = Some Timeout \/ kindOf t = Some Network)) /\
  (forall e, reason = ErrorObject e -> err_name e <> js "AbortError" ->
   outcome (generate P this tid rq) =
   inl (ThrownNetworkError
          (new_NetworkError (js "Network request failed: " ++ err_message e)
             (Some e)))).
Proof.
  intros Hin Hok Hbuf.
  destruct (generate_received _ _ _ _ _ Hin)
    as (url & headers & body & Hfetch & ->).
  rewrite outcome_try_catch,
    (generateTry_unreadable _ _ _ _ _ _ _ Hfetch Hok Hbuf).
  split.
  - destruct (generateCatch_throws this (ofReason reason)) as (t & Ht & Hc).
    exists t. split; [exact Ht |].
    destruct Hc as [(e & He & _) | [(e & ->) | (e & ->)]];
      [destruct reason; discriminate | left | right]; reflexivity.
  - intros e -> Hname. unfold generateCatch. cbn [ofReason asError].
    destruct (jsString_eqb (err_name e) (js "AbortError")) eqn:Heq;
      [| reflexivity].
    apply jsString_eqb_eq in Heq. contradiction.
Qed.

(** X8 at a success response whose body stream breaks. *)
Lemma X8_witness_unreadable :
  outcome (generate (respondWith unreadable) (exampleClient None None)
             (js "tpl") emptyRequest) =
  inl (ThrownNetworkError
         (new_NetworkError (js "Network request failed: fetch failed")
            (Some connectionRefused))).
Proof.
  assert (Hin : In unreadable
            (received (respondWith unreadable)
               (events (generate (respondWith unreadable)
                          (exampleClient None None) (js "tpl") emptyRequest))))
    by (vm_compute; left; reflexivity).
  destruct (X8_unreadable_body (respondWith unreadable)
              (exampleClient None None) (js "tpl") emptyRequest unreadable
              (ErrorObject connectionRefused) Hin eq_refl eq_refl)
    as [_ Herror].
  apply (Herror connectionRefused); [reflexivity | discriminate].
Defined.

(** X9: once a request has been handed to [fetch], whatever the call raises
    is one of the eight kinds. *)
Theorem X9_errors_after_fetch_are_classified P this tid rq url init t :
  In (url, init) (fetched (events (generate P this tid rq))) ->
  outcome (generate P this tid rq) = inl t ->
  exists kind, kindOf t = Some kind.
Proof.
  intros Hin Hout.
  destruct (generate_fetched _ _ _ _ _ _ Hin)
    as (encoded & body & _ & _ & _ & _ & _ & _ & E).
  rewrite E, outcome_try_catch in Hout.
  destruct (outcome (generateTry P this url _ body)) as [t0 | result];
    [| discriminate].
  destruct (generateCatch_builds _ _ _ Hout)
    as [(e & -> & ->) | [-> | (m & c & ->)]]; eexists; reflexivity.
Qed.

(** X9 at a request the timer aborts. *)
Lemma X9_witness_timeout :
  exists kind,
    kindOf (ThrownTimeoutError (new_TimeoutError DEFAULT_TIMEOUT)) = Some kind.
Proof.
  apply (X9_errors_after_fetch_are_classified (rejectWith abortError)
           (exampleClient None None) (js "tpl") emptyRequest
           (DEFAULT_BASE_URL ++ js "/api/v1/generate/" ++ js "tpl")
           (RequestInit.mk (js "POST")
              (fixedHeaders (exampleClient None None)) (js "{}"))).
  - vm_compute. left. reflexivity.
  - vm_compute. reflexivity.
Defined.

(** [encodeURIComponent] throws nothing but the [URIError]. *)
Lemma encodeURIComponent_throws (s : JsString) (e : JsError) :
  encodeURIComponent s = inl e -> e = URIError.
Proof.
  remember (length s) as n eqn:Hn.
  revert s Hn e.
  induction n as [n IH] using (well_founded_induction lt_wf).
  intros s Hn e. destruct s as [| c t]; [discriminate |].
  cbn [encodeURIComponent].
  destruct (uriUnescaped c).
  { destruct (encodeURIComponent t) as [e' |] eqn:Ht; [| discriminate].
    intros H. inversion H; subst e'.
    eapply (IH (length t)); [subst n; cbn; lia | reflexivity | exact Ht]. }
  destruct (isTrailSurrogate c); [intros H; inversion H; reflexivity |].
  destruct (isLeadSurrogate c).
  - destruct t as [| d t']; [intros H; inversion H; reflexivity |].
    destruct (isTrailSurrogate d); [| intros H; inversion H; reflexivity].
    destruct (encodeURIComponent t') as [e' |] eqn:Ht; [| discriminate].
    intros H. inversion H; subst e'.
    eapply (IH (length t')); [subst n; cbn; lia | reflexivity | exact Ht].
  - destruct (encodeURIComponent t) as [e' |] eqn:Ht; [| discriminate].
    intros H. inversion H; subst e'.
    eapply (IH (length t)); [subst n; cbn; lia | reflexivity | exact Ht].
Qed.

(** X10: a template id that is not well-formed UTF-16 (it holds a surrogate
    without its partner) makes the call fail with the [URIError] of
    [encodeURIComponent] itself: the error is none of the eight kinds, and
    nothing is sent or logged. *)
Theorem X10_malformed_templateId P this tid rq e :
  encodeURIComponent tid = inl e ->
  e = URIError /\
  generate P this tid rq = ([], inl (ThrownError URIError)) /\
  kindOf (ThrownError URIError) = None /\
  isAPIError (ThrownError URIError) = false.
Proof.
  intros Henc.
  pose proof (encodeURIComponent_throws _ _ Henc) as ->.
  split; [reflexivity |]. split; [| split; reflexivity].
  unfold generate. destruct tid as [| c t]; [discriminate |].
  rewrite Henc. reflexivity.
Qed.

(** X10 at a template id that is a lone lead surrogate. *)
Lemma X10_witness_lone_surrogate :
  generate (respondWith pdfResponse) (exampleClient None (Some true))
    [55357] emptyRequest = ([], inl (ThrownError URIError)).
Proof.
  destruct (X10_malformed_templateId (respondWith pdfResponse)
              (exampleClient None (Some true)) [55357] emptyRequest URIError
              eq_refl) as (_ & H & _).
  exact H.
Defined.

(** X11: when the request cannot be serialised, the call fails with what
    [JSON.stringify] threw, as it is: the error is none of the eight kinds,
    and nothing is sent or logged. *)
Theorem X11_unserialisable_request P this tid rq encoded reason :
  tid <> [] ->
  encodeURIComponent tid = inr encoded ->
  Platform.JSON_stringify P rq = inl reason ->
  generate P this tid rq = ([], inl (ofReason reason)) /\
  kindOf (ofReason reason) = None.
Proof.
  intros Hne Henc Hbody. split; [| destruct reason; reflexivity].
  unfold generate. destruct tid as [| c t]; [congruence |].
  rewrite Henc, Hbody. destruct reason; reflexivity.
Qed.

(** X11 at a request with a circular structure. *)
Lemma X11_witness_circular :
  generate (cannotStringify typeError) (exampleClient None (Some true))
    (js "tpl") emptyRequest = ([], inl (ofReason typeError)).
Proof.
  destruct (X11_unserialisable_request (cannotStringify typeError)
              (exampleClient None (Some true)) (js "tpl") emptyRequest
              (js "tpl") typeError) as [H _];
    [discriminate | reflexivity | reflexivity |].
  exact H.
Defined.

(** X12: a call hands at most one request to [fetch], never a second one,
    and exactly one when the template id is not empty and encodes and the
    request serialises. *)
Theorem X12_at_most_one_request P this tid rq :
  (length (fetched (events (generate P this tid rq))) <= 1)%nat /\
  (length (fetched (events (generate P this tid rq))) = 1%nat <->
   tid <> [] /\
   (exists encoded, encodeURIComponent tid = inr encoded) /\
   (exists body, Platform.JSON_stringify P rq = inr body)).
Proof.
  destruct tid as [| c t].
  { cbn. split; [lia |]. split; [discriminate | intros [H _]; congruence]. }
  destruct (encodeURIComponent (c :: t)) as [e | encoded] eqn:Henc.
  { unfold generate. rewrite Henc. cbn. split; [lia |].
    split; [discriminate | intros (_ & (x & H) & _); discriminate]. }
  destruct (Platform.JSON_stringify P rq) as [reason | body] eqn:Hbody.
  { unfold generate. rewrite Henc, Hbody. cbn. split; [lia |].
    split; [discriminate | intros (_ & _ & (x & H)); discriminate]. }
  assert (Hne : c :: t <> []) by discriminate.
  destruct (generate_sent P this _ rq encoded body Hne Henc Hbody)
    as (log & -> & Hlog).
  assert (Hpre : fetched log = [])
    by (subst log; destruct (debugEnabled this); reflexivity).
  rewrite events_pair, fetched_app, Hpre, fetched_generateTry. cbn.
  split; [lia |]. split; [| reflexivity].
  intros _. split; [exact Hne |]. split; eexists; reflexivity.
Qed.

(** X13: every request a call sends is a POST to the base URL followed by
    [/api/v1/generate/] and the percent-encoded template id, with the
    serialised request as its body. *)
Theorem X13_request_shape P this tid rq url init :
  In (url, init) (fetched (events (generate P this tid rq))) ->
  exists encoded body,
    encodeURIComponent tid = inr encoded /\
    Platform.JSON_stringify P rq = inr body /\
    url = DocumentStack.baseUrl this ++ js "/api/v1/generate/" ++ encoded /\
    RequestInit.method init = js "POST" /\
    RequestInit.body init = body.
Proof.
  intros Hin.
  destruct (generate_fetched _ _ _ _ _ _ Hin)
    as (encoded & body & _ & Henc & Hbody & Hurl & Hinit & _).
  cbv zeta in Hinit. subst init.
  exists encoded, body. repeat split; assumption.
Qed.

(** X13 at a template id with a space and a slash. *)
Lemma X13_witness_reserved :
  exists encoded body,
    encodeURIComponent (js "a b/c") = inr encoded /\
    Platform.JSON_stringify (respondWith pdfResponse) emptyRequest = inr body /\
    DEFAULT_BASE_URL ++ js "/api/v1/generate/" ++ js "a%20b%2Fc" =
      DocumentStack.baseUrl (exampleClient None None) ++
      js "/api/v1/generate/" ++ encoded /\
    RequestInit.method
      (RequestInit.mk (js "POST")
         (fixedHeaders (exampleClient None None)) (js "{}")) = js "POST" /\
    RequestInit.body
      (RequestInit.mk (js "POST")
         (fixedHeaders (exampleClient None None)) (js "{}")) = body.
Proof.
  apply (X13_request_shape (respondWith pdfResponse)
           (exampleClient None None) (js "a b/c") emptyRequest).
  vm_compute. left. reflexivity.
Defined.

(** ** Further properties: the URL and the file name *)








(** Without surrogates, [encodeURIComponent] does not throw. *)
Lemma encodeURIComponent_scalars (s : JsString) :
  Forall (fun c => isLeadSurrogate c = false /\ isTrailSurrogate c = false) s ->
  exists r, encodeURIComponent s = inr r.
Proof.
  induction 1 as [| c t [Hlead Htrail] Ht [r IH]]; [eexists; reflexivity |].
  cbn [encodeURIComponent]. rewrite IH, Hlead, Htrail.
  destruct (uriUnescaped c); eexists; reflexivity.
Qed.

(** X15: a call with a non-empty template id that holds no surrogate code
    unit, and a request that serialises, always sends its one request. *)
Theorem X15_request_is_sent P this tid rq body :
  tid <> [] ->
  Forall (fun c => isLeadSurrogate c = false /\ isTrailSurrogate c = false)
    tid ->
  Platform.JSON_stringify P rq = inr body ->
  exists encoded,
    encodeURIComponent tid = inr encoded /\
    fetched (events (generate P this tid rq)) =
    [(DocumentStack.baseUrl this ++ js "/api/v1/generate/" ++ encoded,
      RequestInit.mk (js "POST")
        (spread (fixedHeaders this) (DocumentStack.headers this)) body)].
Proof.
  intros Hne Htid Hbody.
  destruct (encodeURIComponent_scalars _ Htid) as [encoded Henc].
  exists encoded. split; [exact Henc |].
  destruct (generate_sent P this _ rq encoded body Hne Henc Hbody)
    as (log & -> & Hlog).
  assert (Hpre : fetched log = [])
    by (subst log; destruct (debugEnabled this); reflexivity).
  rewrite events_pair, fetched_app, Hpre, fetched_generateTry. reflexivity.
Qed.

(** X15 at an ordinary template id. *)
Lemma X15_witness_tpl :
  exists encoded,
    encodeURIComponent (js "tpl") = inr encoded /\
    fetched (events (generate (rejectWith abortError)
                       (exampleClient None None) (js "tpl") emptyRequest)) =
    [(DocumentStack.baseUrl (exampleClient None None) ++
        js "/api/v1/generate/" ++ encoded,
      RequestInit.mk (js "POST")
        (spread (fixedHeaders (exampleClient None None))
           (DocumentStack.headers (exampleClient None None))) (js "{}"))].
Proof.
  apply (X15_request_is_sent (rejectWith abortError)
           (exampleClient None None) (js "tpl") emptyRequest (js "{}")).
  - discriminate.
  - vm_compute. repeat constructor.
  - reflexivity.
Defined.

(** The captured file name is never empty and holds no double quote,
    semicolon or line feed. *)
Lemma takeWhile_all (f : N -> bool) (s : JsString) :
  Forall (fun c => f c = true) (takeWhile f s).
Proof.
  induction s as [| c t IH]; [constructor |].
  cbn [takeWhile]. destruct (f c) eqn:Hc; constructor; assumption.
Qed.

Lemma matchFilenameAt_group (s g : JsString) :
  matchFilenameAt s = Some g ->
  g <> [] /\ Forall (fun c => filenameChar c = true) g.
Proof.
  unfold matchFilenameAt.
  destruct (stripPrefix (js "filename=") s) as [rest |]; [| discriminate].
  match goal with |- context [takeWhile filenameChar ?r] =>
    pose proof (takeWhile_all filenameChar r) as Hall;
    destruct (takeWhile filenameChar r) as [| c t]
  end; [discriminate |].
  intros H. inversion H; subst g. split; [discriminate | exact Hall].
Qed.

Lemma matchFilename_group (s g : JsString) :
  matchFilename s = Some g ->
  g <> [] /\ Forall (fun c => filenameChar c = true) g.
Proof.
  induction s as [| c t IH]; cbn [matchFilename].
  - destruct (matchFilenameAt []) as [g' |] eqn:Hat; [| discriminate].
    intros H. inversion H; subst g'. apply (matchFilenameAt_group _ _ Hat).
  - destruct (matchFilenameAt (c :: t)) as [g' |] eqn:Hat; [| exact IH].
    intros H. inversion H; subst g'. apply (matchFilenameAt_group _ _ Hat).
Qed.


(** Without a percent sign there is nothing to decode. *)
Lemma decodeURIComponent_plain_text (s : JsString) :
  ~ In 37 s -> decodeURIComponent s = inr s.
Proof.
  induction s as [| c t IH]; [reflexivity |].
  intros Hs. cbn [decodeURIComponent].
  destruct (N.eqb_spec c 37) as [-> | Hc]; [exfalso; apply Hs; left; reflexivity |].
  cbn [negb]. rewrite IH; [reflexivity |].
  intros Hin. apply Hs. right. exact Hin.
Qed.

Ltac case_decode H :=
  repeat match type of H with
         | context [match ?x with _ => _ end] => destruct x eqn:?
         end.


(** [decodeURIComponent] throws nothing but the [URIError]. *)
Lemma decodeURIComponent_throws (s : JsString) (e : JsError) :
  decodeURIComponent s = inl e -> e = URIError.
Proof.
  remember (length s) as n eqn:Hn.
  revert s Hn e.
  induction n as [n IH] using (well_founded_induction lt_wf).
  intros s Hn e H. destruct s as [| c k1]; [discriminate |].
  cbn [decodeURIComponent] in H. unfold emitCodePoint in H.
  case_decode H; try discriminate; inversion H; subst;
    try reflexivity;
    match goal with
    | Hrec : decodeURIComponent ?k = inl ?e' |- ?e' = URIError =>
        eapply (IH (length k)); [cbn [length]; lia | reflexivity | exact Hrec]
    end.
Qed.

(** X16: when the file name captured from the disposition header holds no
    percent sign, a success response whose body can be read returns that
    file name as captured. *)
Theorem X16_plain_filename_verbatim P this tid rq response pdf v g :
  In response (received P (events (generate P this tid rq))) ->
  Response.ok response = true ->
  Response.arrayBuffer response = inr pdf ->
  Headers_get (Response.headers response) (js "Content-Disposition") = Some v ->
  matchFilename v = Some g ->
  ~ In 37 g ->
  exists result,
    outcome (generate P this tid rq) = inr result /\
    GenerateResponse.filename result = g /\
    GenerateResponse.pdf result = pdf.
Proof.
  intros Hin Hok Hbuf Hcd Hm Hg.
  assert (Hraw : rawFilename (Response.headers response) = g).
  { unfold rawFilename. rewrite Hcd.
    destruct v as [| c v']; [discriminate |].
    cbn [opt_str_or str_or]. rewrite Hm.
    destruct (matchFilename_group _ _ Hm) as [Hne _].
    destruct g; [congruence | reflexivity]. }
  exists (resultOf (Response.headers response) pdf g). split.
  - apply (generate_returns _ _ _ _ _ _ g Hin Hok Hbuf).
    rewrite Hraw. apply decodeURIComponent_plain_text. exact Hg.
  - split; reflexivity.
Qed.

(** X16 at the example response. *)
Lemma X16_witness_pdf :
  exists result,
    outcome (generate (respondWith pdfResponse) (exampleClient None None)
               (js "tpl") emptyRequest) = inr result /\
    GenerateResponse.filename result = js "x.pdf" /\
    GenerateResponse.pdf result = [x25; x50; x44; x46]%byte.
Proof.
  apply (X16_plain_filename_verbatim (respondWith pdfResponse)
           (exampleClient None None) (js "tpl") emptyRequest pdfResponse
           [x25; x50; x44; x46]%byte
           (js "attachment; filename=" ++ quoted (js "x.pdf")) (js "x.pdf")).
  - vm_compute. left. reflexivity.
  - reflexivity.
  - reflexivity.
  - reflexivity.
  - reflexivity.
  - vm_compute. intuition discriminate.
Defined.





(** X19: whenever the file name of a success response does not decode, no
    result is returned: the call fails with a network error whose cause is
    the [URIError] and whose message says so. *)
Theorem X19_undecodable_filename P this tid rq response pdf e :
  In response (received P (events (generate P this tid rq))) ->
  Response.ok response = true ->
  Response.arrayBuffer response = inr pdf ->
  decodeURIComponent (rawFilename (Response.headers response)) = inl e ->
  outcome (generate P this tid rq) =
  inl (ThrownNetworkError
         (new_NetworkError (js "Network request failed: URI malformed")
            (Some URIError))).
Proof.
  intros Hin Hok Hbuf Hdec.
  rewrite (generate_ok _ _ _ _ _ _ Hin Hok Hbuf), Hdec.
  rewrite (decodeURIComponent_throws _ _ Hdec). reflexivity.
Qed.

(** X19 at a file name with a truncated escape. *)
Lemma X19_witness_truncated :
  outcome (generate (respondWith malformedFilename) (exampleClient None None)
             (js "tpl") emptyRequest) =
  inl (ThrownNetworkError
         (new_NetworkError (js "Network request failed: URI malformed")
            (Some URIError))).
Proof.
  apply (X19_undecodable_filename (respondWith malformedFilename)
           (exampleClient None None) (js "tpl") emptyRequest malformedFilename
           [x25; x50; x44; x46]%byte URIError).
  - vm_compute. left. reflexivity.
  - reflexivity.
  - reflexivity.
  - vm_compute. reflexivity.
Defined.

(** ** Further properties: the debug log and the kinds of outcome *)

Lemma events_bind {A B} (m : Async A) (k : A -> Async B) :
  events (bind m k) =
  events m ++ match outcome m with
              | inl _ => []
              | inr a => events (k a)
              end.
Proof.
  destruct m as [tr [t | a]]; cbn; [symmetry; apply app_nil_r |].
  destruct (k a); reflexivity.
Qed.

Lemma events_try_catch {A} (m : Async A) (h : Thrown -> Async A) :
  events (try_catch m h) =
  events m ++ match outcome m with
              | inl t => events (h t)
              | inr _ => []
              end.
Proof.
  destruct m as [tr [t | a]]; cbn; [| symmetry; apply app_nil_r].
  destruct (h t); reflexivity.
Qed.

(** What the [try] and [catch] blocks emit: the request, and the response
    log when debugging and the body of a success response was read. *)
Lemma events_generateTry P this url headers body :
  events (try_catch (generateTry P this url headers body)
            (generateCatch this)) =
  Fetch url (RequestInit.mk (js "POST") headers body) ::
  match Platform.fetch P url (RequestInit.mk (js "POST") headers body) with
  | inr response =>
      if Response.ok response then
        match Response.arrayBuffer response with
        | inr pdf =>
            if debugEnabled this then
              [LogResponse (rawFilename (Response.headers response))
                 (parseInt (opt_str_or
                    (Headers_get (Response.headers response)
                       (js "X-Generation-Time-Ms")) (js "0")))
                 (parseInt (opt_str_or
                    (Headers_get (Response.headers response)
                       (js "Content-Length")) (js "0")))]
            else []
        | inl _ => []
        end
      else []
  | inl _ => []
  end.
Proof.
  rewrite events_try_catch.
  replace (match outcome (generateTry P this url headers body) with
           | inl t => events (generateCatch this t)
           | inr _ => []
           end) with (@nil Event)
    by (destruct (outcome _); [rewrite events_generateCatch |]; reflexivity).
  rewrite app_nil_r. unfold generateTry.
  rewrite events_bind. cbn [emit events outcome fst snd app].
  f_equal. rewrite events_bind.
  destruct (Platform.fetch P url _) as [reason | response];
    [reflexivity |].
  cbn [await ret events outcome fst snd app].
  destruct (Response.ok response); cbn [negb]; [| reflexivity].
  rewrite events_bind.
  destruct (Response.arrayBuffer response) as [reason | pdf];
    [reflexivity |].
  cbn [await ret events outcome fst snd app].
  rewrite events_bind. fold (rawFilename (Response.headers response)).
  replace (outcome (when (debugEnabled this) _)) with (@inr Thrown unit tt)
    by (destruct (debugEnabled this); reflexivity).
  rewrite events_bind.
  replace (match outcome (await (sum_map ErrorObject id
                    (decodeURIComponent
                       (rawFilename (Response.headers response))))) with
           | inl _ => []
           | inr a => events (ret _)
           end) with (@nil Event)
    by (destruct (decodeURIComponent _); reflexivity).
  replace (events (await (sum_map ErrorObject id
             (decodeURIComponent (rawFilename (Response.headers response))))))
    with (@nil Event) by (destruct (decodeURIComponent _); reflexivity).
  destruct (debugEnabled this); reflexivity.
Qed.

(** X20: the request log never shows the credential under [Authorization]:
    a logged request appears only when debugging, shows the URL and body of
    the request that is sent and its headers, except that the value under
    [Authorization] is the mask. *)
Theorem X20_log_masks_authorization P this tid rq url headers body :
  In (LogRequest url headers body) (events (generate P this tid rq)) ->
  debugEnabled this = true /\
  headers !! js "Authorization" = Some (js "Bearer ***") /\
  exists init,
    fetched (events (generate P this tid rq)) = [(url, init)] /\
    RequestInit.body init = body /\
    forall name, name <> js "Authorization" ->
      headers !! name = RequestInit.headers init !! name.
Proof.
  intros Hin.
  destruct tid as [| c t]; [destruct Hin |].
  destruct (encodeURIComponent (c :: t)) as [e | encoded] eqn:Henc.
  { unfold generate in Hin. rewrite Henc in Hin. destruct Hin. }
  destruct (Platform.JSON_stringify P rq) as [reason | body'] eqn:Hbody.
  { unfold generate in Hin. rewrite Henc, Hbody in Hin. destruct Hin. }
  assert (Hne : c :: t <> []) by discriminate.
  destruct (generate_sent P this _ rq encoded body' Hne Henc Hbody)
    as (log & E & Hlog).
  rewrite E in Hin. rewrite E. clear E.
  rewrite events_pair in Hin. rewrite events_pair.
  rewrite events_generateTry in Hin. rewrite events_generateTry.
  assert (Hinlog : In (LogRequest url headers body) log).
  { apply in_app_or in Hin. destruct Hin as [H | H]; [exact H |].
    destruct H as [H | H]; [discriminate |].
    destruct (Platform.fetch P _ _) as [| response]; [destruct H |].
    destruct (Response.ok response); [| destruct H].
    destruct (Response.arrayBuffer response); [destruct H |].
    destruct (debugEnabled this); [| destruct H].
    destruct H as [H | []]. discriminate. }
  assert (Hpre : fetched log = [])
    by (subst log; destruct (debugEnabled this); reflexivity).
  rewrite fetched_app, Hpre. cbn [app].
  subst log. destruct (debugEnabled this); [| destruct Hinlog].
  destruct Hinlog as [H | []]. inversion H; subst url headers body.
  split; [reflexivity |]. split; [apply lookup_insert_eq |].
  eexists. split.
  - unfold fetched. cbn [flat_map app]. f_equal.
    destruct (Platform.fetch P _ _) as [| response]; [reflexivity |].
    destruct (Response.ok response); [| reflexivity].
    destruct (Response.arrayBuffer response); reflexivity.
  - split; [reflexivity |].
    intros name Hname. cbn [RequestInit.headers].
    apply lookup_insert_ne. congruence.
Qed.

(** X20 at a debugging client. *)
Lemma X20_witness_debug :
  (<[js "Authorization" := js "Bearer ***"]>
     (fixedHeaders (exampleClient None (Some true))))
    !! js "Authorization" = Some (js "Bearer ***").
Proof.
  destruct (X20_log_masks_authorization (respondWith pdfResponse)
              (exampleClient None (Some true)) (js "tpl") emptyRequest
              (DEFAULT_BASE_URL ++ js "/api/v1/generate/" ++ js "tpl")
              (<[js "Authorization" := js "Bearer ***"]>
                 (fixedHeaders (exampleClient None (Some true))))
              (js "{}")) as (_ & Hmask & _).
  - vm_compute. left. reflexivity.
  - exact Hmask.
Defined.

(** X21: without the debug flag a call logs nothing: every event it emits
    is a request handed to [fetch]. *)
Theorem X21_no_log_without_debug P this tid rq :
  debugEnabled this = false ->
  events (generate P this tid rq) =
  map (fun '(url, init) => Fetch url init)
    (fetched (events (generate P this tid rq))).
Proof.
  intros Hdebug.
  destruct tid as [| c t]; [reflexivity |].
  destruct (encodeURIComponent (c :: t)) as [e | encoded] eqn:Henc.
  { unfold generate. rewrite Henc. reflexivity. }
  destruct (Platform.JSON_stringify P rq) as [reason | body] eqn:Hbody.
  { unfold generate. rewrite Henc, Hbody. destruct reason; reflexivity. }
  assert (Hne : c :: t <> []) by discriminate.
  destruct (generate_sent P this _ rq encoded body Hne Henc Hbody)
    as (log & -> & ->).
  rewrite events_pair, Hdebug. cbn [app].
  rewrite fetched_generateTry, events_generateTry, Hdebug. cbn [map].
  f_equal.
  destruct (Platform.fetch P _ _) as [| response]; [reflexivity |].
  destruct (Response.ok response); [| reflexivity].
  destruct (Response.arrayBuffer response); reflexivity.
Qed.

(** X21 at a client built without a debug setting. *)
Lemma X21_witness_default :
  events (generate (respondWith pdfResponse) (exampleClient None None)
            (js "tpl") emptyRequest) =
  map (fun '(url, init) => Fetch url init)
    (fetched (events (generate (respondWith pdfResponse)
                        (exampleClient None None) (js "tpl") emptyRequest))).
Proof.
  apply (X21_no_log_without_debug (respondWith pdfResponse)
           (exampleClient None None) (js "tpl") emptyRequest).
  reflexivity.
Defined.

(** X22: when debugging, a call that received a success response and read
    its body emits, in this order, the request log, the request and the
    response log; the response log shows the file name before decoding and
    the two parsed headers, the length header without the fallback to the
    length of the document, and it is emitted even when the file name then
    fails to decode. *)
Theorem X22_debug_trace_on_success P this tid rq response pdf :
  debugEnabled this = true ->
  In response (received P (events (generate P this tid rq))) ->
  Response.ok response = true ->
  Response.arrayBuffer response = inr pdf ->
  exists url init,
    events (generate P this tid rq) =
    [LogRequest url
       (<[js "Authorization" := js "Bearer ***"]> (RequestInit.headers init))
       (RequestInit.body init);
     Fetch url init;
     LogResponse (rawFilename (Response.headers response))
       (parseInt (opt_str_or
          (Headers_get (Response.headers response)
             (js "X-Generation-Time-Ms")) (js "0")))
       (parseInt (opt_str_or
          (Headers_get (Response.headers response)
             (js "Content-Length")) (js "0")))].
Proof.
  intros Hdebug Hin Hok Hbuf.
  unfold received in Hin. apply in_flat_map in Hin.
  destruct Hin as ([url init] & Hsent & Hres).
  destruct (generate_fetched _ _ _ _ _ _ Hsent)
    as (encoded & body & Hne & Henc & Hbody & Hurl & Hinit & _).
  cbv zeta in Hinit.
  destruct (Platform.fetch P url init) as [| response'] eqn:Hfetch;
    [destruct Hres |].
  destruct Hres as [-> | []].
  destruct (generate_sent P this _ rq encoded body Hne Henc Hbody)
    as (log & -> & ->).
  exists url, init.
  rewrite events_pair, Hdebug, events_generateTry.
  rewrite <- Hurl, <- Hinit, Hfetch, Hok, Hbuf, Hdebug.
  subst init. reflexivity.
Qed.

(** X22 at a response whose file name does not decode. *)
Lemma X22_witness_malformed :
  exists url init,
    events (generate (respondWith malformedFilename)
              (exampleClient None (Some true)) (js "tpl") emptyRequest) =
    [LogRequest url
       (<[js "Authorization" := js "Bearer ***"]> (RequestInit.headers init))
       (RequestInit.body init);
     Fetch url init;
     LogResponse (rawFilename (Response.headers malformedFilename))
       (parseInt (opt_str_or
          (Headers_get (Response.headers malformedFilename)
             (js "X-Generation-Time-Ms")) (js "0")))
       (parseInt (opt_str_or
          (Headers_get (Response.headers malformedFilename)
             (js "Content-Length")) (js "0")))].
Proof.
  apply (X22_debug_trace_on_success (respondWith malformedFilename)
           (exampleClient None (Some true)) (js "tpl") emptyRequest
           malformedFilename [x25; x50; x44; x46]%byte).
  - reflexivity.
  - vm_compute. left. reflexivity.
  - reflexivity.
  - reflexivity.
Defined.






